(** * d2s_qgis_client: a shallow embedding of the D2S client for QGIS

    The Python module [d2s_qgis_client.py] authenticates against a D2S
    server with cookie tokens, performs GET requests with one
    refresh-and-retry on HTTP 401, and exposes the resource chain
    Workspace -> Project -> Flight -> DataProduct.

    The embedding keeps the shape of the source:
    - the [requests.Session] shared by every object is one mutable store,
      the [World]: its cookie jar, its [api_key] attribute and the log of
      the requests sent so far;
    - methods that touch the session are computations of the monad [M]
      (state plus Python exceptions);
    - the remote server, [urllib.parse.urlparse] and the builtin [str] are
      outside the module and are parameters of the development.

    The remote server is an oracle that answers a request with a response
    or an exception.  Every exchange made through the session also hands
    the [Set-Cookie] headers of the answer to the jar before the module
    sees the response; what the cookie policy of [requests] makes of the
    jar then is a second oracle, [extract_cookies]. *)

From Stdlib Require Import ZArith Ascii String.
From stdpp Require Import base option list strings gmap fin_maps pretty.

Set Warnings "-register-all".
Local Open Scope Z_scope.
Local Open Scope string_scope.

(** ** Python values *)

(** The values [response.json()] can produce.  Objects are dictionaries
    with string keys.  Non-integer JSON numbers are not represented. *)
Inductive json : Type :=
| JNull
| JBool (b : bool)
| JNum (n : Z)
| JStr (s : string)
| JArr (l : list json)
| JObj (m : gmap string json).

(** Python truthiness ([if v:]) of a JSON value. *)
Definition truthy (v : json) : bool :=
  match v with
  | JNull => false
  | JBool b => b
  | JNum n => negb (n =? 0)%Z
  | JStr s => negb (String.eqb s "")
  | JArr l => match l with [] => false | _ :: _ => true end
  | JObj m => match map_to_list m with [] => false | _ :: _ => true end
  end.

(** ** Responses *)

(** What the module reads of a response: [status_code], the cookies of
    [response.cookies] in the order of the jar, each by name and value,
    and the body, [None] when it is not JSON. *)
Record Response : Type := mkResponse {
  status_code : Z;
  resp_cookies : list (string * string);
  body : option json
}.

(** ** Exceptions

    Every failure the module signals itself is a [ValueError] told apart
    by its message; the other constructors are the exceptions raised by
    the library calls and by the language. *)
Inductive exn : Type :=
| ValueError (msg : string)
| HTTPError (response : Response)
| JSONDecodeError
| CookieConflictError
| TransportError (what : string)
| KeyError (key : string)
| AttributeError (attribute : string)
| TypeError
| IndexError.

Inductive result (A : Type) : Type :=
| Ok (a : A)
| Raise (e : exn).
Arguments Ok {A} a.
Arguments Raise {A} e.

(** The kinds of failure the design document names, as the source raises
    them. *)
Definition AuthError_invalid_credentials : exn :=
  ValueError "Authentication failed. Check your email and password.".
Definition AuthError_status (status : Z) : exn :=
  ValueError ("Login failed with status " ++ pretty status).
Definition AuthError_user_lookup : exn :=
  ValueError "Failed to fetch user information".
Definition ConfigError : exn :=
  ValueError "Session missing access token. Must sign in first.".
Definition SessionExpiredError : exn :=
  ValueError "Session expired. Please login again.".

(** ** Cookies, requests and responses *)

(** A cookie as [RequestsCookieJar.set(name, value, domain=..., path=...)]
    is asked to create it; [cookie_domain = None] is a call without the
    [domain] keyword. *)
Record Cookie : Type := mkCookie {
  cookie_name : string;
  cookie_value : string;
  cookie_domain : option string;
  cookie_path : string
}.

(** The jar files a cookie under domain, path and name; an absent domain
    is filed under the empty domain. *)
Definition jar_key (c : Cookie) : string * string * string :=
  (default "" (cookie_domain c), cookie_path c, cookie_name c).

Definition jar_set (c : Cookie) (jar : list Cookie) : list Cookie :=
  filter (λ c', jar_key c' ≠ jar_key c) jar ++ [c].

(** [any(cookie.name == n for cookie in jar)] *)
Definition jar_has_name (n : string) (jar : list Cookie) : bool :=
  existsb (λ c, String.eqb (cookie_name c) n) jar.

Inductive Method : Type := GET | POST.

(** One HTTP exchange as the module starts it: the verb, the URL, the
    keyword arguments given to [requests] and the jar of the session at
    the moment it sends it (empty for the module-level
    [requests.post]). *)
Record Request : Type := mkRequest {
  req_method : Method;
  req_url : string;
  req_kwargs : gmap string json;
  req_cookies : list Cookie
}.

(** ** The session as a store *)

Record World : Type := mkWorld {
  cookies : list Cookie;
  api_key : option json;
  sent : list Request
}.

Definition fresh_session : World := mkWorld [] None [].

(** ** The monad of session computations *)

Definition M (A : Type) : Type := World → result A * World.

#[global] Instance M_ret : MRet M := λ A a w, (Ok a, w).
#[global] Instance M_bind : MBind M := λ A B f m w,
  match m w with
  | (Ok a, w') => f a w'
  | (Raise e, w') => (Raise e, w')
  end.

Definition raise {A : Type} (e : exn) : M A := λ w, (Raise e, w).

(** [try: body except Exception: handler] *)
Definition try_except {A : Type} (body : M A) (handler : exn → M A) : M A :=
  λ w, match body w with
       | (Ok a, w') => (Ok a, w')
       | (Raise e, w') => handler e w'
       end.

Definition lift {A : Type} (r : result A) : M A := λ w, (r, w).

#[global] Instance result_ret : MRet result := λ A a, Ok a.
#[global] Instance result_bind : MBind result := λ A B f r,
  match r with
  | Ok a => f a
  | Raise e => Raise e
  end.

(** A list comprehension whose element expression can raise. *)
Fixpoint comprehension {A B : Type} (f : A → result B) (l : list A) : result (list B) :=
  match l with
  | [] => Ok []
  | x :: l' =>
      match f x with
      | Ok y => match comprehension f l' with
                | Ok ys => Ok (y :: ys)
                | Raise e => Raise e
                end
      | Raise e => Raise e
      end
  end.

Definition get_cookies : M (list Cookie) := λ w, (Ok (cookies w), w).

(** [session.cookies.set(...)] *)
Definition cookies_set (c : Cookie) : M unit :=
  λ w, (Ok tt, mkWorld (jar_set c (cookies w)) (api_key w) (sent w)).

(** [session.cookies.clear()] *)
Definition cookies_clear : M unit :=
  λ w, (Ok tt, mkWorld [] (api_key w) (sent w)).

(** [session.api_key = v] *)
Definition set_api_key (v : json) : M unit :=
  λ w, (Ok tt, mkWorld (cookies w) (Some v) (sent w)).

(** The loop of [RequestsCookieJar._find_no_duplicates]: the value of the
    one cookie called [name], an error at the second cookie of that
    name. *)
Fixpoint find_no_duplicates (name : string) (jar : list (string * string))
    (toReturn : option string) : result (option string) :=
  match jar with
  | [] => Ok toReturn
  | (n, v) :: rest =>
      if String.eqb n name then
        match toReturn with
        | Some _ => Raise CookieConflictError
        | None => find_no_duplicates name rest (Some v)
        end
      else find_no_duplicates name rest toReturn
  end.

(** [response.cookies[name]]: after the loop an empty value counts as no
    cookie. *)
Definition cookies_getitem (r : Response) (n : string) : result string :=
  match find_no_duplicates n (resp_cookies r) None with
  | Ok (Some v) => if String.eqb v "" then Raise (KeyError n) else Ok v
  | Ok None => Raise (KeyError n)
  | Raise e => Raise e
  end.

(** [name in response.cookies]: the subscript is tried, [KeyError] means
    no, a conflict of names means yes. *)
Definition cookies_contains (r : Response) (n : string) : bool :=
  match cookies_getitem r n with
  | Ok _ => true
  | Raise (KeyError _) => false
  | Raise _ => true
  end.

(** [response.raise_for_status()]; the error carries the response. *)
Definition raise_for_status (r : Response) : result unit :=
  if (400 <=? status_code r)%Z && (status_code r <? 600)%Z
  then Raise (HTTPError r)
  else Ok tt.

(** [response.json()] *)
Definition response_json (r : Response) : result json :=
  match body r with
  | Some j => Ok j
  | None => Raise JSONDecodeError
  end.

(** ** String helpers of the language *)

(** [s.rstrip('/')] *)
Fixpoint rstrip_slash (s : string) : string :=
  match s with
  | EmptyString => EmptyString
  | String c r =>
      match rstrip_slash r with
      | EmptyString => if Ascii.eqb c "/"%char then EmptyString else String c EmptyString
      | r' => String c r'
      end
  end.

(** [s.split(sep)] for a separator of one character. *)
Fixpoint py_split (sep : ascii) (s : string) : list string :=
  match s with
  | EmptyString => [EmptyString]
  | String c r =>
      if Ascii.eqb c sep then EmptyString :: py_split sep r
      else match py_split sep r with
           | h :: t => String c h :: t
           | [] => [String c EmptyString]
           end
  end.

(** [needle in haystack] on strings. *)
Fixpoint py_substring (needle haystack : string) : bool :=
  String.prefix needle haystack ||
  match haystack with
  | EmptyString => false
  | String _ r => py_substring needle r
  end.

Definition contains_char (c : ascii) (s : string) : Prop :=
  c ∈ list_ascii_of_string s.

Section Client.

(** The remote side: what the exchange [req] yields after the exchanges
    [history], a response or an exception of the transport. *)
Variable server : list Request → Request → result Response.

(** The cookie policy of the library: the jar of the session once
    [Session.send] has taken the [Set-Cookie] headers of the answer to
    [req], received after the exchanges [history], into the jar it is
    given ([extract_cookies_to_jar]). *)
Variable extract_cookies : list Request → Request → list Cookie → list Cookie.

(** [urllib.parse.urlparse(url).hostname] *)
Variable urlparse_hostname : string → option string.

(** The session once the exchange [req] is over. *)
Definition answered (req : Request) (w : World) : World :=
  mkWorld (extract_cookies (sent w) req (cookies w)) (api_key w) (sent w ++ [req]).

(** [Session.send]: the cookies of the exchange reach the jar before its
    outcome reaches the caller, be it the response or an exception
    raised on the way (a redirect that fails after its first hop). *)
Definition session_send (req : Request) : M Response :=
  λ w, (server (sent w) req, answered req w).

(** [session.get(url, **kwargs)] *)
Definition session_get (url : string) (kwargs : gmap string json) : M Response :=
  λ w, session_send (mkRequest GET url kwargs (cookies w)) w.

(** [session.post(url)] *)
Definition session_post (url : string) : M Response :=
  λ w, session_send (mkRequest POST url ∅ (cookies w)) w.

(** [requests.post(url, data=data)], sent outside the session: the jar of
    the session is neither read nor written. *)
Definition requests_post (url : string) (data : gmap string json) : M Response :=
  λ w, let req := mkRequest POST url {[ "data" := JObj data ]} [] in
       (server (sent w) req, mkWorld (cookies w) (api_key w) (sent w ++ [req])).

(** *** class Auth *)

Record Auth : Type := mkAuth { auth_base_url : string }.

(** [Auth.__init__]: the session of a new [Auth] is a new
    [requests.Session()]. *)
Definition Auth_init (base_url : string) : M Auth :=
  λ w, (Ok (mkAuth (rstrip_slash base_url)), mkWorld [] None (sent w)).

(** [in] and subscripting on the decoded user record, with the failures
    Python has for each type of value. *)
Definition json_contains (key : string) (v : json) : result bool :=
  match v with
  | JObj m => Ok (bool_decide (is_Some (m !! key)))
  | JArr l => Ok (existsb (λ x, match x with JStr s => String.eqb s key | _ => false end) l)
  | JStr s => Ok (py_substring key s)
  | _ => Raise TypeError
  end.

Definition json_getitem (key : string) (v : json) : result json :=
  match v with
  | JObj m => match m !! key with Some x => Ok x | None => Raise (KeyError key) end
  | _ => Raise TypeError
  end.

(** [Auth.login]; the returned object is the session, here the store. *)
Definition login (self : Auth) (email password : string) : M unit :=
  let credentials : gmap string json :=
    {[ "username" := JStr email; "password" := JStr password ]} in
  let url := auth_base_url self ++ "/api/v1/auth/access-token" in
  response ← requests_post url credentials;
  if (status_code response =? 200)%Z && cookies_contains response "access_token" then
    let host := default "" (urlparse_hostname (auth_base_url self)) in
    token_value ← lift (cookies_getitem response "access_token");
    (if String.eqb host "localhost" || String.eqb host "127.0.0.1"
     then cookies_set (mkCookie "access_token" token_value None "/")
     else cookies_set (mkCookie "access_token" token_value (Some host) "/"));;
    (if cookies_contains response "refresh_token" then
       refresh_value ← lift (cookies_getitem response "refresh_token");
       if String.eqb host "localhost" || String.eqb host "127.0.0.1"
       then cookies_set (mkCookie "refresh_token" refresh_value None "/")
       else cookies_set (mkCookie "refresh_token" refresh_value (Some host) "/")
     else mret tt);;
    user_response ← session_get (auth_base_url self ++ "/api/v1/users/current") ∅;
    if (status_code user_response =? 200)%Z then
      user_data ← lift (response_json user_response);
      has_key ← lift (json_contains "api_access_token" user_data);
      (if (has_key : bool) then
         v ← lift (json_getitem "api_access_token" user_data);
         if truthy v then set_api_key v else mret tt
       else mret tt);;
      mret tt
    else raise (ValueError "Failed to fetch user information")
  else if (status_code response =? 401)%Z then
    raise (ValueError "Authentication failed. Check your email and password.")
  else
    raise (ValueError ("Login failed with status " ++ pretty (status_code response))).

(** *** class APIClient *)

Record APIClient : Type := mkAPIClient { client_base_url : string }.

(** [APIClient.__init__] *)
Definition APIClient_init (base_url : string) : M APIClient :=
  jar ← get_cookies;
  if negb (jar_has_name "access_token" jar)
  then raise (ValueError "Session missing access token. Must sign in first.")
  else mret (mkAPIClient base_url).

(** [APIClient._refresh_access_token] *)
Definition _refresh_access_token (self : APIClient) : M bool :=
  jar ← get_cookies;
  if negb (jar_has_name "refresh_token" jar) then mret false
  else
    let url := client_base_url self ++ "/api/v1/auth/refresh-token" in
    try_except
      (response ← session_post url;
       if (status_code response =? 200)%Z then
         let host := default "" (urlparse_hostname (client_base_url self)) in
         (if cookies_contains response "access_token" then
            v ← lift (cookies_getitem response "access_token");
            if String.eqb host "localhost" || String.eqb host "127.0.0.1"
            then cookies_set (mkCookie "access_token" v None "/")
            else cookies_set (mkCookie "access_token" v (Some host) "/")
          else mret tt);;
         (if cookies_contains response "refresh_token" then
            v ← lift (cookies_getitem response "refresh_token");
            if String.eqb host "localhost" || String.eqb host "127.0.0.1"
            then cookies_set (mkCookie "refresh_token" v None "/")
            else cookies_set (mkCookie "refresh_token" v (Some host) "/")
          else mret tt);;
         mret true
       else mret false)
      (λ _, mret false).

(** [APIClient.make_get_request] *)
Definition make_get_request (self : APIClient) (endpoint : string)
    (kwargs : gmap string json) : M json :=
  let url := client_base_url self ++ endpoint in
  response ← session_get url kwargs;
  response ← (if (status_code response =? 401)%Z
                 && negb (String.eqb endpoint "/api/v1/auth/refresh-token")
              then
                refreshed ← _refresh_access_token self;
                if (refreshed : bool) then session_get url kwargs
                else cookies_clear;; raise (ValueError "Session expired. Please login again.")
              else mret response);
  lift (raise_for_status response);;
  lift (response_json response).

(** *** The resource objects

    An instance is its [__dict__]: attribute names to values, a value
    being the client reference or a field sent by the server. *)
Inductive attr : Type :=
| AClient (c : APIClient)
| AVal (v : json).

(** The builtin [str], as the f-strings of the endpoints apply it. *)
Variable py_str : attr → string.

(** [self.name] on an instance whose class defines no data attribute. *)
Definition getattr (self : gmap string attr) (name : string) : result attr :=
  match self !! name with
  | Some a => Ok a
  | None => Raise (AttributeError name)
  end.

(** [self.client.make_get_request]: the method exists on an [APIClient]
    only. *)
Definition getattr_client (self : gmap string attr) : result APIClient :=
  match self !! "client" with
  | Some (AClient c) => Ok c
  | Some (AVal _) => Raise (AttributeError "make_get_request")
  | None => Raise (AttributeError "client")
  end.

(** [for x in v] over a decoded body: the elements of an array, the keys
    of an object, the characters of a string. *)
Definition py_iter (v : json) : result (list json) :=
  match v with
  | JArr l => Ok l
  | JObj m => Ok (JStr <$> (map_to_list m).*1)
  | JStr s => Ok ((λ c, JStr (String c EmptyString)) <$> list_ascii_of_string s)
  | _ => Raise TypeError
  end.

(** [**data] in a call: [data] has to be a mapping. *)
Definition unpack (data : json) : result (gmap string json) :=
  match data with
  | JObj m => Ok m
  | _ => Raise TypeError
  end.

(** Binding the call [C(client, **kwargs)] to the signature
    [__init__(self, client, **kwargs)]: a keyword that names a parameter
    already filled by position is rejected by the interpreter before the
    body runs. *)
Definition bind_arguments (kwargs : gmap string json) : result (gmap string json) :=
  if bool_decide (is_Some (kwargs !! "self")) || bool_decide (is_Some (kwargs !! "client"))
  then Raise TypeError
  else Ok kwargs.

(** [self.__dict__.update(kwargs)] *)
Definition dict_update (d : gmap string attr) (kwargs : gmap string json) : gmap string attr :=
  (AVal <$> kwargs) ∪ d.

(** Body of [Project.__init__]. *)
Definition Project_init (client : APIClient) (kwargs : gmap string json) : gmap string attr :=
  let self : gmap string attr := <[ "client" := AClient client ]> ∅ in
  dict_update self kwargs.

(** The call [Project(client, **kwargs)]. *)
Definition Project (client : APIClient) (kwargs : gmap string json) : result (gmap string attr) :=
  kwargs ← bind_arguments kwargs;
  Ok (Project_init client kwargs).

(** Python truthiness of an attribute value. *)
Definition attr_truthy (a : attr) : bool :=
  match a with
  | AClient _ => true
  | AVal v => truthy v
  end.

(** Body of [Flight.__init__]. *)
Definition Flight_init (client : APIClient) (kwargs : gmap string json) : result (gmap string attr) :=
  let self : gmap string attr := <[ "client" := AClient client ]> ∅ in
  let self := dict_update self kwargs in
  match self !! "acquisition_date" with
  | Some a =>
      if attr_truthy a then
        match a with
        | AVal (JStr s) =>
            match py_split "T" s !! 0%nat with
            | Some date => Ok (<[ "acquisition_date" := AVal (JStr date) ]> self)
            | None => Raise IndexError
            end
        | _ => Ok self
        end
      else Ok self
  | None => Ok self
  end.

(** The call [Flight(client, **kwargs)]. *)
Definition Flight (client : APIClient) (kwargs : gmap string json) : result (gmap string attr) :=
  kwargs ← bind_arguments kwargs;
  Flight_init client kwargs.

(** Body of [DataProduct.__init__]. *)
Definition DataProduct_init (client : APIClient) (kwargs : gmap string json) : gmap string attr :=
  let self : gmap string attr := <[ "client" := AClient client ]> ∅ in
  dict_update self kwargs.

(** The call [DataProduct(client, **kwargs)]. *)
Definition DataProduct (client : APIClient) (kwargs : gmap string json) : result (gmap string attr) :=
  kwargs ← bind_arguments kwargs;
  Ok (DataProduct_init client kwargs).

Record ProjectCollection : Type := mkProjectCollection { project_collection : list (gmap string attr) }.
Record FlightCollection : Type := mkFlightCollection { flight_collection : list (gmap string attr) }.
Record DataProductCollection : Type :=
  mkDataProductCollection { data_product_collection : list (gmap string attr) }.

(** *** class Workspace *)

Record Workspace : Type := mkWorkspace {
  ws_api_key : string;
  ws_base_url : string;
  ws_client : APIClient
}.

(** [Workspace.__init__] *)
Definition Workspace_init (base_url : string) (api_key : string) : M Workspace :=
  client ← APIClient_init base_url;
  mret (mkWorkspace api_key base_url client).

(** The [params] dictionary of the two filtered listings. *)
Definition has_raster_params (has_raster : bool) : gmap string json :=
  if has_raster then {[ "has_raster" := JBool has_raster ]} else ∅.

(** [Workspace.get_projects] *)
Definition get_projects (self : Workspace) (has_raster : bool) : M ProjectCollection :=
  let endpoint := "/api/v1/projects" in
  let params := has_raster_params has_raster in
  response_data ← make_get_request (ws_client self) endpoint {[ "params" := JObj params ]};
  items ← lift (py_iter response_data);
  projects ← lift (comprehension
                     (λ project_data, kwargs ← unpack project_data; Project (ws_client self) kwargs)
                     items);
  mret (mkProjectCollection projects).

(** [Project.get_flights] *)
Definition get_flights (self : gmap string attr) (has_raster : bool) : M FlightCollection :=
  id ← lift (getattr self "id");
  let endpoint := "/api/v1/projects/" ++ py_str id ++ "/flights" in
  let params := has_raster_params has_raster in
  client ← lift (getattr_client self);
  response_data ← make_get_request client endpoint {[ "params" := JObj params ]};
  items ← lift (py_iter response_data);
  flights ← lift (comprehension
                    (λ flight_data, kwargs ← unpack flight_data; Flight client kwargs)
                    items);
  mret (mkFlightCollection flights).

(** [Flight.get_data_products] *)
Definition get_data_products (self : gmap string attr) : M DataProductCollection :=
  project_id ← lift (getattr self "project_id");
  id ← lift (getattr self "id");
  let endpoint :=
    "/api/v1/projects/" ++ py_str project_id ++ "/flights/" ++ py_str id ++ "/data_products" in
  client ← lift (getattr_client self);
  response_data ← make_get_request client endpoint ∅;
  items ← lift (py_iter response_data);
  products ← lift (comprehension
                     (λ product_data, kwargs ← unpack product_data; DataProduct client kwargs)
                     items);
  mret (mkDataProductCollection products).

(** *** class User and [Auth.get_current_user] *)

(** [data.get(key)]: the value, [None] when the key is missing; only a
    dictionary has the method. *)
Definition dict_get (data : json) (key : string) : result json :=
  match data with
  | JObj m => Ok (default JNull (m !! key))
  | _ => Raise (AttributeError "get")
  end.

Record User : Type := mkUser {
  user_id : json;
  user_email : json;
  user_first_name : json;
  user_last_name : json;
  user_api_access_token : json
}.

(** [User.__init__] *)
Definition User_init (data : json) : result User :=
  id ← dict_get data "id";
  email ← dict_get data "email";
  first_name ← dict_get data "first_name";
  last_name ← dict_get data "last_name";
  api_access_token ← dict_get data "api_access_token";
  Ok (mkUser id email first_name last_name api_access_token).

(** [Auth.get_current_user] *)
Definition get_current_user (self : Auth) : M (option User) :=
  let url := auth_base_url self ++ "/api/v1/users/current" in
  response ← session_get url ∅;
  if (status_code response =? 200)%Z then
    data ← lift (response_json response);
    user ← lift (User_init data);
    mret (Some user)
  else mret None.

(** *** The workers of [d2s_browser_workers.py]

    A worker's [run] calls one listing method and emits one of its two
    signals; the value returned here is the signal emitted. *)
Inductive signal : Type :=
| finished (items : list (gmap string attr))
| error (message : string).

(** The text [str(e)] of an exception raised by a library or by the
    language. *)
Variable library_message : exn → string.

(** [str(e)]: a [ValueError] built from one string prints as that
    string. *)
Definition str_exn (e : exn) : string :=
  match e with
  | ValueError msg => msg
  | _ => library_message e
  end.

(** [obj.name(...)] on a resource: an entry of the instance's [__dict__]
    called [name] hides the method of the class, and none of the values
    such an entry can hold is callable. *)
Definition call_method {A : Type} (self : gmap string attr) (name : string)
    (method : M A) : M A :=
  match self !! name with
  | Some _ => raise TypeError
  | None => method
  end.

(** [ProjectsWorker.run] *)
Definition ProjectsWorker_run (workspace : Workspace) : M signal :=
  try_except
    (projects ← get_projects workspace true;
     mret (finished (project_collection projects)))
    (λ e, mret (error (str_exn e))).

(** [FlightsWorker.run] *)
Definition FlightsWorker_run (project : gmap string attr) : M signal :=
  try_except
    (flights ← call_method project "get_flights" (get_flights project true);
     mret (finished (flight_collection flights)))
    (λ e, mret (error (str_exn e))).

(** [DataProductsWorker.run] *)
Definition DataProductsWorker_run (flight : gmap string attr) : M signal :=
  try_except
    (data_products ← call_method flight "get_data_products" (get_data_products flight);
     mret (finished (data_product_collection data_products)))
    (λ e, mret (error (str_exn e))).


End Client.

(** ** The scoping rule of the design document

    Token cookies carry no domain for the loopback hosts and the host
    itself otherwise; their path is always the root.  These definitions
    say so in the document's words; the statements below compare them
    with what [login] and [_refresh_access_token] leave in the jar. *)

Definition is_loopback (host : string) : Prop :=
  host = "localhost" ∨ host = "127.0.0.1".

Definition scoped_cookie (host name value : string) : Cookie :=
  mkCookie name value (if decide (is_loopback host) then None else Some host) "/".

Definition store_token (host : string) (r : Response) (name : string)
    (jar : list Cookie) : list Cookie :=
  match cookies_getitem r name with
  | Ok v => jar_set (scoped_cookie host name v) jar
  | Raise _ => jar
  end.

Definition store_tokens (host : string) (r : Response) (jar : list Cookie) : list Cookie :=
  store_token host r "refresh_token" (store_token host r "access_token" jar).

(** Several cookies of the answer share the name [n]: the subscript
    [response.cookies[n]] raises. *)
Definition ambiguous (r : Response) (n : string) : Prop :=
  cookies_getitem r n = Raise CookieConflictError.

(** The world once [req] has gone out through the module-level
    [requests.post]: it is logged, the jar of the session is as it
    was. *)
Definition log_request (req : Request) (w : World) : World :=
  mkWorld (cookies w) (api_key w) (sent w ++ [req]).

Definition with_cookies (jar : list Cookie) (w : World) : World :=
  mkWorld jar (api_key w) (sent w).

(** The exchanges the module starts, as the transport sees them. *)
Definition refresh_request (self : APIClient) (w : World) : Request :=
  mkRequest POST (client_base_url self ++ "/api/v1/auth/refresh-token") ∅ (cookies w).

Definition get_request (self : APIClient) (endpoint : string)
    (kwargs : gmap string json) (w : World) : Request :=
  mkRequest GET (client_base_url self ++ endpoint) kwargs (cookies w).

Definition token_request (self : Auth) (email password : string) : Request :=
  mkRequest POST (auth_base_url self ++ "/api/v1/auth/access-token")
    {[ "data" := JObj {[ "username" := JStr email; "password" := JStr password ]} ]} [].

Definition user_request (self : Auth) (w : World) : Request :=
  mkRequest GET (auth_base_url self ++ "/api/v1/users/current") ∅ (cookies w).

(** The last two lines of [make_get_request] on the response kept:
    [raise_for_status()] then [json()]. *)
Definition response_outcome (r : Response) : result json :=
  _ ← raise_for_status r; response_json r.


(** What the rule asks of a stored token cookie. *)
Definition follows_scoping_rule (host : string) (c : Cookie) : Prop :=
  (cookie_name c = "access_token" ∨ cookie_name c = "refresh_token") ∧
  cookie_path c = "/" ∧
  (is_loopback host → cookie_domain c = None) ∧
  (¬ is_loopback host → cookie_domain c = Some host).

(** The end of [login] once the user lookup has answered 200: the decoded
    record may leave its [api_access_token] on the session. *)
Definition keep_api_key (user_response : Response) : M unit :=
  user_data ← lift (response_json user_response);
  has_key ← lift (json_contains "api_access_token" user_data);
  (if (has_key : bool) then
     v ← lift (json_getitem "api_access_token" user_data);
     if truthy v then set_api_key v else mret tt
   else mret tt);;
  mret tt.


(** A request carries the [has_raster] filter exactly when it was asked
    for, and then with the value [True]. *)
Definition sends_filter (has_raster : bool) (req : Request) : Prop :=
  ∃ params, req_kwargs req !! "params" = Some (JObj params) ∧
            params !! "has_raster" = if has_raster then Some (JBool true) else None.


(** A run of [k] slashes. *)
Fixpoint slashes (k : nat) : string :=
  match k with
  | O => ""
  | S k' => String "/" (slashes k')
  end.


(** An element of a listing from which no resource can be built: not an
    object, or an object with a field named like a constructor
    parameter. *)
Definition bad_item (item : json) : Prop :=
  match item with
  | JObj m => is_Some (m !! "client") ∨ is_Some (m !! "self")
  | _ => True
  end.


(** ** Concrete servers and sessions

    Small fixed scenarios on which the statements below are exercised. *)
Module Scenario.

Definition base_url : string := "https://d2s.example.org".
Definition local_url : string := "http://localhost:8000".

Definition hostname (url : string) : option string :=
  if String.eqb url local_url then Some "localhost"
  else if String.eqb url base_url then Some "d2s.example.org"
  else None.

Definition client : APIClient := mkAPIClient base_url.

(** A cookie policy for answers that carry no [Set-Cookie] header. *)
Definition keep_jar (_ : list Request) (_ : Request) (jar : list Cookie) : list Cookie :=
  jar.

(** A cookie policy for a server that expires [access_token] with every
    answer to a GET. *)
Definition expire_access (_ : list Request) (req : Request) (jar : list Cookie) : list Cookie :=
  match req_method req with
  | GET => filter (λ c, cookie_name c ≠ "access_token") jar
  | POST => jar
  end.

Definition access_only : World :=
  mkWorld [mkCookie "access_token" "a0" (Some "d2s.example.org") "/"] None [].

Definition both_tokens : World :=
  mkWorld [mkCookie "access_token" "a0" (Some "d2s.example.org") "/";
           mkCookie "refresh_token" "r0" (Some "d2s.example.org") "/"] None [].

Definition is_post (r : Request) : bool :=
  match req_method r with POST => true | GET => false end.

Definition projects_body : json :=
  JArr [JObj {[ "id" := JStr "p1" ]}].

(** Answers 401 to every GET until a refresh has been posted, 200 with
    a list of one project afterwards; the refresh rotates both tokens. *)
Definition expiring (history : list Request) (req : Request) : result Response :=
  match req_method req with
  | POST => Ok (mkResponse 200 [("access_token", "a1"); ("refresh_token", "r1")] None)
  | GET => if existsb is_post history
           then Ok (mkResponse 200 [] (Some projects_body))
           else Ok (mkResponse 401 [] None)
  end.


(** Answers every exchange with the same status and no cookie. *)
Definition always (status : Z) (_ : list Request) (_ : Request) : result Response :=
  Ok (mkResponse status [] None).

(** Accepts the credentials, then refuses the user lookup. *)
Definition no_user (_ : list Request) (req : Request) : result Response :=
  match req_method req with
  | POST => Ok (mkResponse 200 [("access_token", "a1"); ("refresh_token", "r1")] None)
  | GET => Ok (mkResponse 500 [] None)
  end.

(** Accepts the credentials, knows the user and lists one project. *)
Definition healthy (_ : list Request) (req : Request) : result Response :=
  match req_method req with
  | POST => Ok (mkResponse 200 [("access_token", "a1")] None)
  | GET =>
      if String.eqb (req_url req) (base_url ++ "/api/v1/users/current")
      then Ok (mkResponse 200 []
                 (Some (JObj {[ "id" := JNum 1; "api_access_token" := JStr "key" ]})))
      else Ok (mkResponse 200 [] (Some projects_body))
  end.

(** Sign in, open the workspace and list the projects with rasters, the
    way the plugin drives the module. *)
Definition browse (server : list Request → Request → result Response) : M ProjectCollection :=
  auth ← Auth_init (base_url ++ "/");
  login server keep_jar hostname auth "user@example.org" "secret";;
  workspace ← Workspace_init (auth_base_url auth) "";
  get_projects server keep_jar hostname workspace true.

Definition str (a : attr) : string :=
  match a with
  | AVal (JStr s) => s
  | _ => "?"
  end.

(** Answers every exchange 200 with the body [j] and no cookie. *)
Definition answers (j : json) (_ : list Request) (_ : Request) : result Response :=
  Ok (mkResponse 200 [] (Some j)).

(** Grants every refresh and still answers 401 to every GET. *)
Definition stubborn (_ : list Request) (req : Request) : result Response :=
  match req_method req with
  | POST => Ok (mkResponse 200 [("access_token", "a1")] None)
  | GET => Ok (mkResponse 401 [] None)
  end.

Definition message (e : exn) : string :=
  match e with
  | TypeError => "TypeError"
  | AttributeError a => "no attribute " ++ a
  | _ => "error"
  end.

Definition project : gmap string attr := Project_init client {[ "id" := JStr "p1" ]}.

Definition flight : gmap string attr :=
  Project_init client {[ "id" := JStr "f1"; "project_id" := JStr "p1" ]}.

Definition flights_body : json :=
  JArr [JObj {[ "id" := JStr "f1"; "project_id" := JStr "p1";
                "acquisition_date" := JStr "2024-06-10T12:34:56" ]}].


End Scenario.

(** ** Properties *)

Ltac run :=
  unfold mbind, M_bind, mret, M_ret, result_bind, result_ret, lift, raise, try_except,
    get_cookies, cookies_set, cookies_clear, set_api_key in *;
  simpl in *.

Lemma jar_has_name_true (n : string) (jar : list Cookie) :
  jar_has_name n jar = true ↔ ∃ c, c ∈ jar ∧ cookie_name c = n.
Proof.
  unfold jar_has_name. rewrite existsb_exists. split.
  - intros (c & Hin & Heq). exists c. split.
    + by apply list_elem_of_In.
    + by apply String.eqb_eq.
  - intros (c & Hin & Heq). exists c. split.
    + by apply list_elem_of_In.
    + by apply String.eqb_eq.
Qed.

Lemma jar_has_name_false (n : string) (jar : list Cookie) :
  jar_has_name n jar = false ↔ ∀ c, c ∈ jar → cookie_name c ≠ n.
Proof.
  split.
  - intros Hf c Hin Heq.
    assert (jar_has_name n jar = true) as Ht by (apply jar_has_name_true; eauto).
    congruence.
  - intros Hall. destruct (jar_has_name n jar) eqn:E; [|done].
    apply jar_has_name_true in E as (c & Hin & Heq). by destruct (Hall c Hin).
Qed.

(** *** The jar *)

Lemma elem_of_jar_set (c c' : Cookie) (jar : list Cookie) :
  c' ∈ jar_set c jar ↔ c' = c ∨ (c' ∈ jar ∧ jar_key c' ≠ jar_key c).
Proof.
  unfold jar_set. rewrite elem_of_app, list_elem_of_filter, list_elem_of_singleton.
  tauto.
Qed.

Lemma scoped_cookie_follows_rule (host n v : string) :
  n = "access_token" ∨ n = "refresh_token" →
  follows_scoping_rule host (scoped_cookie host n v).
Proof.
  intros Hn. unfold follows_scoping_rule, scoped_cookie. simpl.
  repeat split; try done; intros Hl; by destruct (decide (is_loopback host)).
Qed.

Lemma store_token_new (host : string) (r : Response) (n : string) (jar : list Cookie)
    (c : Cookie) :
  n = "access_token" ∨ n = "refresh_token" →
  c ∈ store_token host r n jar → c ∈ jar ∨ follows_scoping_rule host c.
Proof.
  intros Hn. unfold store_token. destruct (cookies_getitem r n) as [v|e]; [|by left].
  rewrite elem_of_jar_set. intros [->|[Hin _]]; [right|by left].
  by apply scoped_cookie_follows_rule.
Qed.

Lemma store_tokens_new (host : string) (r : Response) (jar : list Cookie) (c : Cookie) :
  c ∈ store_tokens host r jar → c ∈ jar ∨ follows_scoping_rule host c.
Proof.
  unfold store_tokens. intros Hc.
  apply store_token_new in Hc as [Hc|Hc]; [|by right|by right].
  apply store_token_new in Hc; [done|by left].
Qed.

Lemma store_tokens_stored (host : string) (r : Response) (jar : list Cookie) (n v : string) :
  n = "access_token" ∨ n = "refresh_token" →
  cookies_getitem r n = Ok v →
  scoped_cookie host n v ∈ store_tokens host r jar.
Proof.
  unfold store_tokens, store_token. intros [->| ->] Hv; rewrite Hv.
  - destruct (cookies_getitem r "refresh_token") as [b|e].
    + apply elem_of_jar_set. right. split.
      * apply elem_of_jar_set. by left.
      * unfold jar_key, scoped_cookie. simpl. congruence.
    + apply elem_of_jar_set. by left.
  - apply elem_of_jar_set. by left.
Qed.

Lemma scoped_cookie_loopback (host n v : string) :
  is_loopback host → scoped_cookie host n v = mkCookie n v None "/".
Proof. intros Hl. unfold scoped_cookie. by destruct (decide (is_loopback host)). Qed.

Lemma scoped_cookie_remote (host n v : string) :
  ¬ is_loopback host → scoped_cookie host n v = mkCookie n v (Some host) "/".
Proof. intros Hl. unfold scoped_cookie. by destruct (decide (is_loopback host)). Qed.


Lemma rstrip_slash_spec (s : string) :
  (∃ k, s = rstrip_slash s ++ slashes k) ∧ ∀ p, rstrip_slash s ≠ p ++ "/".
Proof.
  induction s as [|c s [[k Hk] Hend]]; simpl.
  - split; [by exists 0%nat|]. by intros [|? [|? ?]].
  - destruct (rstrip_slash s) as [|a t] eqn:Hs.
    + destruct (Ascii.eqb_spec c "/") as [->|Hc].
      * split; [exists (S k); by rewrite Hk|]. by intros [|? [|? ?]].
      * split; [exists k; by rewrite Hk|].
        intros [|? [|? ?]] [=]; congruence.
    + split; [exists k; by rewrite Hk|].
      intros [|c' p] [=]. subst c'. by apply (Hend p).
Qed.


(** *** List comprehensions *)

Lemma comprehension_map {A B : Type} (f : A → result B) (g : A → B) (l : list A) :
  (∀ x, x ∈ l → f x = Ok (g x)) → comprehension f l = Ok (g <$> l).
Proof.
  induction l as [|x l IH]; intros Hall; simpl; [done|].
  rewrite (Hall x) by apply list_elem_of_here.
  rewrite IH; [done|]. intros y Hy. apply Hall. by apply list_elem_of_further.
Qed.

Lemma comprehension_raises {A B : Type} (f : A → result B) (l : list A) (e0 : exn) :
  (∀ x e, x ∈ l → f x = Raise e → e = e0) →
  (∃ x e, x ∈ l ∧ f x = Raise e) →
  comprehension f l = Raise e0.
Proof.
  induction l as [|x l IH]; intros Honly (x0 & e & Hin & Hraise).
  - by apply elem_of_nil in Hin.
  - simpl. destruct (f x) as [y|e'] eqn:Hx.
    + rewrite IH; [done| |].
      * intros ? ? ?. apply Honly. by apply list_elem_of_further.
      * apply elem_of_cons in Hin as [->|Hin]; [congruence|eauto].
    + f_equal. apply (Honly x); [apply list_elem_of_here|done].
Qed.

Lemma comprehension_elem {A B : Type} (f : A → result B) (l : list A) (ys : list B) :
  comprehension f l = Ok ys →
  length ys = length l ∧ ∀ y, y ∈ ys → ∃ x, x ∈ l ∧ f x = Ok y.
Proof.
  revert ys. induction l as [|x l IH]; intros ys; simpl.
  - intros [= <-]. split; [done|]. by intros y ?%elem_of_nil.
  - destruct (f x) as [y0|e] eqn:Hx; [|done].
    destruct (comprehension f l) as [ys0|e]; [|done].
    intros [= <-]. destruct (IH ys0 eq_refl) as [Hlen Helem].
    split; [simpl; by rewrite Hlen|].
    intros y [->|Hy]%elem_of_cons.
    + exists x. split; [apply list_elem_of_here|done].
    + destruct (Helem y Hy) as (x' & Hx' & Hfx'). exists x'.
      split; [by apply list_elem_of_further|done].
Qed.


(** *** Cookies of a response *)

Lemma find_no_duplicates_raises (n : string) (jar : list (string * string))
    (acc : option string) (e : exn) :
  find_no_duplicates n jar acc = Raise e → e = CookieConflictError.
Proof.
  revert acc. induction jar as [|[n' v] jar IH]; intros acc; simpl; [done|].
  destruct (String.eqb n' n); [|by apply IH].
  destruct acc; [by intros [= <-]|by apply IH].
Qed.

Lemma cookies_getitem_cases (r : Response) (n : string) :
  (∃ v, cookies_getitem r n = Ok v) ∨
  cookies_getitem r n = Raise (KeyError n) ∨
  ambiguous r n.
Proof.
  unfold ambiguous, cookies_getitem.
  destruct (find_no_duplicates n (resp_cookies r) None) as [[v|]|e] eqn:Hfind.
  - destruct (String.eqb v ""); eauto.
  - eauto.
  - apply find_no_duplicates_raises in Hfind as ->. eauto.
Qed.

Lemma cookies_getitem_absent (r : Response) (n : string) :
  (∀ name value, (name, value) ∈ resp_cookies r → name ≠ n) →
  cookies_getitem r n = Raise (KeyError n).
Proof.
  unfold cookies_getitem. intros Habsent.
  assert (find_no_duplicates n (resp_cookies r) None = Ok None) as ->; [|done].
  induction (resp_cookies r) as [|[n' v] jar IH]; simpl; [done|].
  destruct (String.eqb_spec n' n) as [->|_].
  - destruct (Habsent n v); [apply list_elem_of_here|done].
  - apply IH. intros name value Hin. apply (Habsent name value).
    by apply list_elem_of_further.
Qed.

Lemma cookies_contains_found (r : Response) (n v : string) :
  cookies_getitem r n = Ok v → cookies_contains r n = true.
Proof. unfold cookies_contains. by intros ->. Qed.

Lemma cookies_contains_missing (r : Response) (n : string) :
  cookies_getitem r n = Raise (KeyError n) → cookies_contains r n = false.
Proof. unfold cookies_contains. by intros ->. Qed.

Lemma cookies_contains_ambiguous (r : Response) (n : string) :
  ambiguous r n → cookies_contains r n = true.
Proof. unfold cookies_contains, ambiguous. by intros ->. Qed.

Lemma store_token_ambiguous (host : string) (r : Response) (n : string) (jar : list Cookie) :
  ambiguous r n → store_token host r n jar = jar.
Proof. unfold store_token, ambiguous. by intros ->. Qed.

Section Properties.

Variable server : list Request → Request → result Response.
Variable extract : list Request → Request → list Cookie → list Cookie.
Variable hostname : string → option string.
Variable py_str : attr → string.
Variable library_message : exn → string.

(** C3.  Building an [APIClient], directly or through [Workspace], on a
    session whose jar holds no cookie named [access_token] raises the
    configuration error and leaves the store, request log included, as it
    was: nothing has been sent.  When such a cookie is there the client is
    built, again with the store untouched. *)
Theorem APIClient_init_fail_fast (base_url api_key : string) (w : World) :
  ((∀ c, c ∈ cookies w → cookie_name c ≠ "access_token") →
     APIClient_init base_url w = (Raise ConfigError, w) ∧
     Workspace_init base_url api_key w = (Raise ConfigError, w)) ∧
  ((∃ c, c ∈ cookies w ∧ cookie_name c = "access_token") →
     APIClient_init base_url w = (Ok (mkAPIClient base_url), w) ∧
     Workspace_init base_url api_key w
       = (Ok (mkWorkspace api_key base_url (mkAPIClient base_url)), w)).
Proof.
  split.
  - intros Hno. apply jar_has_name_false in Hno.
    unfold Workspace_init, APIClient_init. run. by rewrite Hno.
  - intros Hyes. apply jar_has_name_true in Hyes.
    unfold Workspace_init, APIClient_init. run. by rewrite Hyes.
Qed.

(** *** Token refresh *)

Lemma loopback_test (host : string) :
  String.eqb host "localhost" || String.eqb host "127.0.0.1" = bool_decide (is_loopback host).
Proof.
  unfold is_loopback.
  destruct (String.eqb_spec host "localhost") as [->|H1]; [done|].
  destruct (String.eqb_spec host "127.0.0.1") as [->|H2]; [done|].
  simpl. symmetry. apply bool_decide_eq_false. intros [?|?]; congruence.
Qed.

Ltac token_cases r n H :=
  destruct (cookies_getitem_cases r n) as [[? H]|[H|H]];
  [ rewrite ?(cookies_contains_found r n _ H)
  | rewrite ?(cookies_contains_missing r n H)
  | rewrite ?(cookies_contains_ambiguous r n H); unfold ambiguous in H ];
  rewrite ?H.

(** The whole of [_refresh_access_token] as one equation. *)
Lemma refresh_equation (self : APIClient) (w : World) :
  _refresh_access_token server extract hostname self w =
  if jar_has_name "refresh_token" (cookies w) then
    let req := refresh_request self w in
    let host := default "" (hostname (client_base_url self)) in
    let w1 := answered extract req w in
    match server (sent w) req with
    | Ok r =>
        if (status_code r =? 200)%Z then
          match cookies_getitem r "access_token" with
          | Raise CookieConflictError => (Ok false, w1)
          | _ =>
              match cookies_getitem r "refresh_token" with
              | Raise CookieConflictError =>
                  (Ok false, with_cookies (store_token host r "access_token" (cookies w1)) w1)
              | _ => (Ok true, with_cookies (store_tokens host r (cookies w1)) w1)
              end
          end
        else (Ok false, w1)
    | Raise _ => (Ok false, w1)
    end
  else (Ok false, w).
Proof.
  unfold _refresh_access_token, session_post, session_send, refresh_request. run.
  destruct (jar_has_name "refresh_token" (cookies w)); simpl; [|done].
  destruct (server _ _) as [r|e]; simpl; [|done].
  destruct (status_code r =? 200)%Z; simpl; [|done].
  unfold store_tokens, store_token, scoped_cookie, with_cookies, answered.
  rewrite loopback_test.
  set (host := default "" (hostname (client_base_url self))).
  token_cases r "access_token" Ha; token_cases r "refresh_token" Hb; simpl;
    destruct (decide (is_loopback host)) as [Hl|Hl];
    rewrite ?(bool_decide_eq_true_2 _ Hl), ?(bool_decide_eq_false_2 _ Hl); simpl; done.
Qed.



(** *** GET with one refresh and one retry *)

(** The whole of [make_get_request] as one equation. *)
Lemma make_get_request_equation (self : APIClient) (endpoint : string)
    (kwargs : gmap string json) (w : World) :
  make_get_request server extract hostname self endpoint kwargs w =
  let req := get_request self endpoint kwargs w in
  match server (sent w) req with
  | Raise e => (Raise e, answered extract req w)
  | Ok r =>
      if (status_code r =? 401)%Z && negb (String.eqb endpoint "/api/v1/auth/refresh-token")
      then
        match _refresh_access_token server extract hostname self (answered extract req w) with
        | (Ok true, w2) =>
            let retry := get_request self endpoint kwargs w2 in
            match server (sent w2) retry with
            | Ok r2 => (response_outcome r2, answered extract retry w2)
            | Raise e => (Raise e, answered extract retry w2)
            end
        | (Ok false, w2) => (Raise SessionExpiredError, with_cookies [] w2)
        | (Raise e, w2) => (Raise e, w2)
        end
      else (response_outcome r, answered extract req w)
  end.
Proof.
  unfold make_get_request, session_get, session_send, get_request, response_outcome,
    log_request. run.
  destruct (server _ _) as [r|e]; simpl; [|done].
  destruct (_ && _); simpl.
  - destruct (_refresh_access_token _ _ _ _ _) as [[[|]|e] w2]; simpl; [|done..].
    destruct (server _ _) as [r2|e]; simpl; [|done].
    by destruct (raise_for_status r2).
  - by destruct (raise_for_status r).
Qed.

Lemma refresh_sends (self : APIClient) (w : World) (b : bool) (w' : World) :
  _refresh_access_token server extract hostname self w = (Ok b, w') →
  (b = false ∧ w' = w) ∨
  (sent w' = (sent w ++ [refresh_request self w])%list ∧ api_key w' = api_key w).
Proof.
  rewrite refresh_equation. cbv zeta.
  destruct (jar_has_name "refresh_token" (cookies w)); [|intros [= <- <-]; by left].
  destruct (server (sent w) (refresh_request self w)) as [r|e];
    [|intros [= <- <-]; by right].
  destruct (status_code r =? 200)%Z; [|intros [= <- <-]; by right].
  destruct (cookies_getitem r "access_token") as [?|[]];
    destruct (cookies_getitem r "refresh_token") as [?|[]];
    intros [= <- <-]; by right.
Qed.

Lemma refresh_never_raises_aux (self : APIClient) (w : World) :
  ∃ b w', _refresh_access_token server extract hostname self w = (Ok b, w').
Proof.
  rewrite refresh_equation. cbv zeta.
  destruct (jar_has_name "refresh_token" (cookies w)); [|eauto].
  destruct (server (sent w) (refresh_request self w)) as [r|e]; [|eauto].
  destruct (status_code r =? 200)%Z; [|eauto].
  destruct (cookies_getitem r "access_token") as [?|[]];
    destruct (cookies_getitem r "refresh_token") as [?|[]]; eauto.
Qed.

(** What one call of [make_get_request] hands to the transport. *)
Lemma make_get_request_sends (self : APIClient) (endpoint : string)
    (kwargs : gmap string json) (w : World) :
  let call := make_get_request server extract hostname self endpoint kwargs w in
  let req := get_request self endpoint kwargs w in
  let post := refresh_request self (answered extract req w) in
  ∃ jar, sent call.2 = (sent w ++ [req])%list
       ∨ sent call.2 = (sent w ++ [req; post])%list
       ∨ sent call.2
         = (sent w ++ [req; post; mkRequest GET (client_base_url self ++ endpoint) kwargs jar])%list.
Proof.
  intros call req post. subst call.
  rewrite make_get_request_equation. cbv zeta. fold req.
  destruct (server (sent w) req) as [r|e]; [|exists []; by left].
  destruct (_ && _); [|exists []; by left].
  destruct (_refresh_access_token _ _ _ _ _) as [[[|]|e] w2] eqn:Hrefresh.
  - apply refresh_sends in Hrefresh as [[? _]|(Hsent & _)]; [done|].
    exists (cookies w2). right. right.
    destruct (server (sent w2) _); simpl; rewrite Hsent; simpl; by rewrite <- !app_assoc.
  - apply refresh_sends in Hrefresh as [[_ ->]|(Hsent & _)].
    + exists []. by left.
    + exists []. right. left. simpl. rewrite Hsent. simpl. by rewrite <- !app_assoc.
  - exfalso. destruct (refresh_never_raises_aux self (answered extract req w)) as (b & w' & Hb).
    congruence.
Qed.

(** C1.  A GET on an endpoint other than the refresh endpoint whose first
    answer is 401, followed by a refresh that returns [True], sends the
    same URL and keyword arguments once more; the call then ends with
    what the second answer gives ([raise_for_status] and [json] applied
    to it, so a second 401 is not refreshed again), in particular with
    its decoded body when that answer is not an error status.  Whatever
    happens, one call sends the GET, then at most one refresh POST, then
    at most one more GET.  On the refresh endpoint itself a 401 sends
    nothing further. *)
Theorem get_retries_once_after_refresh (self : APIClient) (endpoint : string)
    (kwargs : gmap string json) (w : World) :
  let call := make_get_request server extract hostname self endpoint kwargs w in
  let url := client_base_url self ++ endpoint in
  let req := get_request self endpoint kwargs w in
  let post := refresh_request self (answered extract req w) in
  (endpoint ≠ "/api/v1/auth/refresh-token" →
   ∀ r w2, server (sent w) req = Ok r → status_code r = 401 →
     _refresh_access_token server extract hostname self (answered extract req w)
       = (Ok true, w2) →
     let retry := get_request self endpoint kwargs w2 in
     req_url retry = req_url req ∧ req_kwargs retry = req_kwargs req ∧
     sent call.2 = (sent w ++ [req; post; retry])%list ∧
     call.1 = match server (sent w2) retry with
              | Ok r2 => response_outcome r2
              | Raise e => Raise e
              end ∧
     (∀ r2 j, server (sent w2) retry = Ok r2 →
        ¬ (400 ≤ status_code r2 < 600)%Z → body r2 = Some j → call.1 = Ok j)) ∧
  (∃ jar, sent call.2 = (sent w ++ [req])%list
        ∨ sent call.2 = (sent w ++ [req; post])%list
        ∨ sent call.2 = (sent w ++ [req; post; mkRequest GET url kwargs jar])%list) ∧
  (endpoint = "/api/v1/auth/refresh-token" →
     sent call.2 = (sent w ++ [req])%list ∧
     (∀ r, server (sent w) req = Ok r →
        call = (response_outcome r, answered extract req w)) ∧
     (∀ e, server (sent w) req = Raise e → call = (Raise e, answered extract req w))).
Proof.
  intros call url req post. subst call.
  split; [|split].
  - rewrite make_get_request_equation. cbv zeta. fold req.
    intros Hne r w2 Hr Hst Hrefresh.
    set (retry := get_request self endpoint kwargs w2).
    rewrite Hr, Hst. apply String.eqb_neq in Hne. rewrite Hne. simpl.
    rewrite Hrefresh. fold retry.
    apply refresh_sends in Hrefresh as [[? _]|(Hsent & _)]; [done|].
    split; [done|]. split; [done|]. split.
    { destruct (server (sent w2) retry); simpl; rewrite Hsent; simpl;
        by rewrite <- !app_assoc. }
    split; [by destruct (server (sent w2) retry)|].
    intros r2 j -> Hok Hbody. simpl. unfold response_outcome, raise_for_status. run.
    destruct (400 <=? status_code r2)%Z eqn:E1; destruct (status_code r2 <? 600)%Z eqn:E2;
      simpl; unfold response_json; rewrite ?Hbody; try done.
    apply Z.leb_le in E1. apply Z.ltb_lt in E2. lia.
  - apply make_get_request_sends.
  - rewrite make_get_request_equation. cbv zeta. fold req.
    intros ->. simpl.
    destruct (server (sent w) req) as [r|e] eqn:Hr; simpl.
    + rewrite andb_false_r. simpl. split; [done|]. split; [by intros ? [= <-]|done].
    + split; [done|]. split; [done|]. by intros ? [= <-].
Qed.

(** C2.  A GET on an endpoint other than the refresh endpoint that is
    answered 401 and whose refresh returns [False] empties the jar and
    raises the session-expired error; a session that holds no
    [refresh_token] cookie when the refresh is tried is such a case, and
    there the refresh sends nothing. *)
Theorem get_expired_session_clears_cookies (self : APIClient) (endpoint : string)
    (kwargs : gmap string json) (w : World) (r : Response) :
  let call := make_get_request server extract hostname self endpoint kwargs w in
  let req := get_request self endpoint kwargs w in
  endpoint ≠ "/api/v1/auth/refresh-token" →
  server (sent w) req = Ok r →
  status_code r = 401 →
  (∀ w2, _refresh_access_token server extract hostname self (answered extract req w)
           = (Ok false, w2) →
     call = (Raise SessionExpiredError, with_cookies [] w2) ∧ cookies call.2 = []) ∧
  ((∀ c, c ∈ cookies (answered extract req w) → cookie_name c ≠ "refresh_token") →
     _refresh_access_token server extract hostname self (answered extract req w)
       = (Ok false, answered extract req w) ∧
     call = (Raise SessionExpiredError, with_cookies [] (answered extract req w)) ∧
     cookies call.2 = [] ∧ sent call.2 = (sent w ++ [req])%list).
Proof.
  intros call req Hne Hr Hst. subst call.
  rewrite make_get_request_equation. cbv zeta. fold req.
  rewrite Hr, Hst. apply String.eqb_neq in Hne. rewrite Hne. simpl.
  split.
  - intros w2 Hrefresh. by rewrite Hrefresh.
  - intros Hno.
    assert (_refresh_access_token server extract hostname self (answered extract req w)
            = (Ok false, answered extract req w)) as Hrefresh.
    { rewrite refresh_equation. apply jar_has_name_false in Hno.
      change (cookies (answered extract req w)) with (extract (sent w) req (cookies w)).
      by rewrite Hno. }
    split; [done|]. by rewrite Hrefresh.
Qed.


(** *** Login *)

Lemma keep_api_key_frame (ru : Response) (w : World) :
  cookies (keep_api_key ru w).2 = cookies w ∧ sent (keep_api_key ru w).2 = sent w.
Proof.
  unfold keep_api_key. run.
  destruct (response_json ru) as [j|e]; simpl; [|done].
  destruct (json_contains _ j) as [[|]|e]; simpl; [|done..].
  destruct (json_getitem _ j) as [v|e]; simpl; [|done].
  by destruct (truthy v).
Qed.

(** The whole of [login] as one equation. *)
Lemma login_equation (self : Auth) (email password : string) (w : World) :
  login server extract hostname self email password w =
  let req := token_request self email password in
  let host := default "" (hostname (auth_base_url self)) in
  match server (sent w) req with
  | Raise e => (Raise e, log_request req w)
  | Ok r =>
      if (status_code r =? 200)%Z && cookies_contains r "access_token" then
        match cookies_getitem r "access_token" with
        | Raise e => (Raise e, log_request req w)
        | Ok _ =>
            match cookies_getitem r "refresh_token" with
            | Raise CookieConflictError =>
                (Raise CookieConflictError,
                 with_cookies (store_token host r "access_token" (cookies w))
                   (log_request req w))
            | _ =>
                let w2 := with_cookies (store_tokens host r (cookies w)) (log_request req w) in
                let ureq := user_request self w2 in
                match server (sent w2) ureq with
                | Raise e => (Raise e, answered extract ureq w2)
                | Ok ru =>
                    if (status_code ru =? 200)%Z
                    then keep_api_key ru (answered extract ureq w2)
                    else (Raise AuthError_user_lookup, answered extract ureq w2)
                end
            end
        end
      else if (status_code r =? 401)%Z
      then (Raise AuthError_invalid_credentials, log_request req w)
      else (Raise (AuthError_status (status_code r)), log_request req w)
  end.
Proof.
  unfold login, requests_post, token_request, session_get, session_send, keep_api_key.
  unfold store_tokens, store_token, scoped_cookie, with_cookies, log_request, user_request,
    answered. run.
  rewrite loopback_test.
  set (host := default "" (hostname (auth_base_url self))).
  destruct (server _ _) as [r|e]; simpl; [|done].
  destruct (status_code r =? 200)%Z; simpl; [|by destruct (status_code r =? 401)%Z].
  token_cases r "access_token" Ha; simpl; [| by destruct (status_code r =? 401)%Z | done].
  token_cases r "refresh_token" Hb; simpl;
    destruct (decide (is_loopback host)) as [Hl|Hl];
    rewrite ?(bool_decide_eq_true_2 _ Hl), ?(bool_decide_eq_false_2 _ Hl); simpl; try done.
  all: destruct (server _ _) as [ru|e]; simpl; [|done].
  all: by destruct (status_code ru =? 200)%Z.
Qed.

Lemma login_returns (self : Auth) (email password : string) (w w' : World) :
  let req := token_request self email password in
  let host := default "" (hostname (auth_base_url self)) in
  let stored r := with_cookies (store_tokens host r (cookies w)) (log_request req w) in
  login server extract hostname self email password w = (Ok tt, w') →
  ∃ r ru v, server (sent w) req = Ok r ∧ status_code r = 200 ∧
    cookies_getitem r "access_token" = Ok v ∧
    server (sent (stored r)) (user_request self (stored r)) = Ok ru ∧
    status_code ru = 200 ∧
    cookies w' = extract (sent (stored r)) (user_request self (stored r))
                   (store_tokens host r (cookies w)) ∧
    scoped_cookie host "access_token" v ∈ req_cookies (user_request self (stored r)).
Proof.
  intros req host stored. subst stored. cbv beta.
  rewrite login_equation. cbv zeta. fold req host.
  destruct (server (sent w) req) as [r|e]; [|done].
  destruct (status_code r =? 200)%Z eqn:Hst; simpl;
    [|by destruct (status_code r =? 401)%Z].
  destruct (cookies_contains r "access_token");
    [|by destruct (status_code r =? 401)%Z].
  destruct (cookies_getitem r "access_token") as [v|e] eqn:Hv; [|done].
  destruct (cookies_getitem_cases r "refresh_token") as [[y Hy]|[Hy|Hy]]; rewrite Hy;
    [| |done].
  all: destruct (server _ (user_request self _)) as [ru|e] eqn:Hru; [|done].
  all: destruct (status_code ru =? 200)%Z eqn:Hok; [|done].
  all: intros Hkeep; exists r, ru, v; apply Z.eqb_eq in Hst, Hok.
  all: repeat split; try done;
    [ match type of Hkeep with keep_api_key ?x ?w2 = _ =>
        pose proof (keep_api_key_frame x w2) as [Hc _] end;
      by rewrite Hkeep in Hc
    | simpl; by apply store_tokens_stored; [left|] ].
Qed.

(** C6.  [login] raises the invalid-credentials error when the token
    endpoint answers 401, the error that carries the status for any other
    status than 200, and the user-lookup error when the token endpoint
    answered 200 with an [access_token] cookie but the current-user
    request is answered with another status than 200.  When [login]
    returns, both exchanges were answered 200 and the lookup was sent
    from a jar that held the token of the first. *)
Theorem login_failure_modes (self : Auth) (email password : string) (w : World) :
  let call := login server extract hostname self email password w in
  let req := token_request self email password in
  let host := default "" (hostname (auth_base_url self)) in
  let stored r := with_cookies (store_tokens host r (cookies w)) (log_request req w) in
  (∀ r, server (sent w) req = Ok r → status_code r = 401 →
     call = (Raise AuthError_invalid_credentials, log_request req w)) ∧
  (∀ r, server (sent w) req = Ok r → status_code r ≠ 200 → status_code r ≠ 401 →
     call = (Raise (AuthError_status (status_code r)), log_request req w)) ∧
  (∀ r ru v, server (sent w) req = Ok r → status_code r = 200 →
     cookies_getitem r "access_token" = Ok v → ¬ ambiguous r "refresh_token" →
     server (sent (stored r)) (user_request self (stored r)) = Ok ru →
     status_code ru ≠ 200 →
     call = (Raise AuthError_user_lookup,
             answered extract (user_request self (stored r)) (stored r))) ∧
  (∀ w', call = (Ok tt, w') →
     ∃ r ru v, server (sent w) req = Ok r ∧ status_code r = 200 ∧
       cookies_getitem r "access_token" = Ok v ∧
       server (sent (stored r)) (user_request self (stored r)) = Ok ru ∧
       status_code ru = 200 ∧
       cookies w' = extract (sent (stored r)) (user_request self (stored r))
                      (store_tokens host r (cookies w)) ∧
       scoped_cookie host "access_token" v ∈ req_cookies (user_request self (stored r))).
Proof.
  intros call req host stored. subst call stored. cbv beta.
  rewrite login_equation. cbv zeta. fold req host.
  split; [|split; [|split]].
  - intros r -> Hst. by rewrite Hst.
  - intros r -> H200 H401.
    apply Z.eqb_neq in H200, H401. by rewrite H200, H401.
  - intros r ru v -> Hst Hv Hb Hru Hlookup. rewrite Hst. simpl.
    rewrite (cookies_contains_found r _ v Hv), Hv.
    simpl in Hru. apply Z.eqb_neq in Hlookup.
    destruct (cookies_getitem_cases r "refresh_token") as [[y Hy]|[Hy|Hy]]; [| |done];
      rewrite Hy, Hru, Hlookup; done.
  - intros w' Hcall. apply login_returns. by rewrite login_equation.
Qed.


(** C9, as the code has it.  A token endpoint answer other than 200
    leaves the jar of the session as it was.  At a failure of the user
    lookup the [access_token] cookie, and the [refresh_token] cookie if
    the answer had one, have been stored: the lookup was sent from a jar
    that holds them, and [login] removes nothing before it raises.  The
    jar after the error is what the lookup exchange made of that jar, so
    the tokens are still set whenever the exchange left the jar as it
    was. *)
Theorem login_cookies_after_failure (self : Auth) (email password : string) (w : World) :
  let call := login server extract hostname self email password w in
  let req := token_request self email password in
  let host := default "" (hostname (auth_base_url self)) in
  let stored r := with_cookies (store_tokens host r (cookies w)) (log_request req w) in
  (∀ r, server (sent w) req = Ok r → status_code r ≠ 200 →
     (∃ e, call.1 = Raise e) ∧ cookies call.2 = cookies w) ∧
  (∀ r ru v, server (sent w) req = Ok r → status_code r = 200 →
     cookies_getitem r "access_token" = Ok v → ¬ ambiguous r "refresh_token" →
     let lookup := user_request self (stored r) in
     server (sent (stored r)) lookup = Ok ru →
     status_code ru ≠ 200 →
     call.1 = Raise AuthError_user_lookup ∧
     sent call.2 = (sent w ++ [req; lookup])%list ∧
     scoped_cookie host "access_token" v ∈ req_cookies lookup ∧
     (∀ v', cookies_getitem r "refresh_token" = Ok v' →
        scoped_cookie host "refresh_token" v' ∈ req_cookies lookup) ∧
     cookies call.2 = extract (sent (stored r)) lookup (req_cookies lookup) ∧
     (extract (sent (stored r)) lookup (req_cookies lookup) = req_cookies lookup →
        scoped_cookie host "access_token" v ∈ cookies call.2 ∧
        ∀ v', cookies_getitem r "refresh_token" = Ok v' →
          scoped_cookie host "refresh_token" v' ∈ cookies call.2)).
Proof.
  intros call req host stored. subst call stored. cbv beta.
  rewrite login_equation. cbv zeta. fold req host.
  split.
  - intros r -> H200. apply Z.eqb_neq in H200. rewrite H200. simpl.
    destruct (status_code r =? 401)%Z; simpl; eauto.
  - intros r ru v -> Hst Hv Hb Hru Hlookup. rewrite Hst. simpl.
    rewrite (cookies_contains_found r _ v Hv), Hv.
    simpl in Hru. apply Z.eqb_neq in Hlookup.
    assert (scoped_cookie host "access_token" v ∈ store_tokens host r (cookies w))
      as Haccess by (by apply store_tokens_stored; [left|]).
    assert (∀ v', cookies_getitem r "refresh_token" = Ok v' →
              scoped_cookie host "refresh_token" v' ∈ store_tokens host r (cookies w))
      as Hrefresh by (intros v' Hv'; by apply store_tokens_stored; [right|]).
    destruct (cookies_getitem_cases r "refresh_token") as [[y Hy]|[Hy|Hy]]; [| |done];
      rewrite Hy in Hrefresh; rewrite Hy, Hru, Hlookup; simpl;
      (split; [done|]); (split; [by rewrite <- app_assoc|]); (split; [done|]);
      (split; [done|]); (split; [done|]); intros ->; by split.
Qed.

Lemma login_sends (self : Auth) (email password : string) (w : World) :
  let call := login server extract hostname self email password w in
  let req := token_request self email password in
  let host := default "" (hostname (auth_base_url self)) in
  sent call.2 = (sent w ++ [req])%list ∨
  ∃ r v,
    server (sent w) req = Ok r ∧ status_code r = 200 ∧
    cookies_getitem r "access_token" = Ok v ∧ ¬ ambiguous r "refresh_token" ∧
    sent call.2
      = (sent w ++ [req; mkRequest GET (auth_base_url self ++ "/api/v1/users/current") ∅
                           (store_tokens host r (cookies w))])%list.
Proof.
  intros call req host. subst call.
  rewrite login_equation. cbv zeta. fold req host.
  destruct (server (sent w) req) as [r|e]; [|by left].
  destruct (status_code r =? 200)%Z eqn:Hst; simpl;
    [|destruct (status_code r =? 401)%Z; by left].
  destruct (cookies_contains r "access_token");
    [|destruct (status_code r =? 401)%Z; by left].
  destruct (cookies_getitem r "access_token") as [v|e] eqn:Hv; [|by left].
  destruct (cookies_getitem_cases r "refresh_token") as [[y Hy]|[Hy|Hy]];
    [| |unfold ambiguous in Hy; rewrite Hy; by left].
  all: right; exists r, v; apply Z.eqb_eq in Hst.
  all: split; [done|]; split; [done|]; split; [done|].
  all: split; [unfold ambiguous; congruence|].
  all: rewrite Hy.
  all: destruct (server _ (user_request self _)) as [ru|e]; simpl;
    [|by rewrite <- !app_assoc].
  all: destruct (status_code ru =? 200)%Z; simpl; [|by rewrite <- !app_assoc].
  all: rewrite (proj2 (keep_api_key_frame _ _)); simpl; by rewrite <- !app_assoc.
Qed.

Lemma login_lookup_sent (self : Auth) (email password : string) (w : World)
    (r : Response) (v : string) :
  let req := token_request self email password in
  let host := default "" (hostname (auth_base_url self)) in
  server (sent w) req = Ok r → status_code r = 200 →
  cookies_getitem r "access_token" = Ok v → ¬ ambiguous r "refresh_token" →
  sent (login server extract hostname self email password w).2
    = (sent w ++ [req; mkRequest GET (auth_base_url self ++ "/api/v1/users/current") ∅
                         (store_tokens host r (cookies w))])%list.
Proof.
  intros req host Hr Hst Hv Hb.
  rewrite login_equation. cbv zeta. fold req host.
  rewrite Hr, Hst. simpl. rewrite (cookies_contains_found r _ v Hv), Hv.
  destruct (cookies_getitem_cases r "refresh_token") as [[y Hy]|[Hy|Hy]]; [| |done];
    rewrite Hy;
    (destruct (server _ (user_request self _)) as [ru|e]; simpl;
       [|by rewrite <- !app_assoc]);
    (destruct (status_code ru =? 200)%Z; simpl; [|by rewrite <- !app_assoc]);
    rewrite (proj2 (keep_api_key_frame _ _)); simpl; by rewrite <- !app_assoc.
Qed.

(** C4.  The token cookies of a 200 answer are stored under the scoping
    rule: path [/], no domain when the host of the base URL is
    [localhost] or [127.0.0.1], the host as domain otherwise.  At login
    they are in the jar from which the user lookup is sent, and that jar
    holds nothing else that the session did not hold before; after a
    refresh they are in the jar, and whatever else the jar holds was
    there before or was left by the refresh exchange itself. *)
Theorem token_cookie_scoping (w : World) :
  (∀ (self : Auth) (email password : string),
     let host := default "" (hostname (auth_base_url self)) in
     let call := login server extract hostname self email password w in
     let req := token_request self email password in
     (∃ new, sent call.2 = (sent w ++ req :: new)%list ∧
        ∀ q c, q ∈ new → c ∈ req_cookies q → c ∈ cookies w ∨ follows_scoping_rule host c) ∧
     (∀ r v, server (sent w) req = Ok r → status_code r = 200 →
        cookies_getitem r "access_token" = Ok v → ¬ ambiguous r "refresh_token" →
        ∃ jar,
          sent call.2
            = (sent w ++ [req; mkRequest GET (auth_base_url self ++ "/api/v1/users/current")
                                 ∅ jar])%list ∧
          ∀ n v', n = "access_token" ∨ n = "refresh_token" → cookies_getitem r n = Ok v' →
            (is_loopback host → mkCookie n v' None "/" ∈ jar) ∧
            (¬ is_loopback host → mkCookie n v' (Some host) "/" ∈ jar))) ∧
  (∀ (self : APIClient),
     let host := default "" (hostname (client_base_url self)) in
     let req := refresh_request self w in
     let jar' := cookies (_refresh_access_token server extract hostname self w).2 in
     (∀ c, c ∈ jar' →
        c ∈ cookies w ∨ c ∈ extract (sent w) req (cookies w) ∨ follows_scoping_rule host c) ∧
     (∀ r n v,
        (∃ c, c ∈ cookies w ∧ cookie_name c = "refresh_token") →
        server (sent w) req = Ok r → status_code r = 200 →
        ¬ ambiguous r "access_token" → ¬ ambiguous r "refresh_token" →
        n = "access_token" ∨ n = "refresh_token" → cookies_getitem r n = Ok v →
        (is_loopback host → mkCookie n v None "/" ∈ jar') ∧
        (¬ is_loopback host → mkCookie n v (Some host) "/" ∈ jar'))).
Proof.
  split.
  - intros self email password host call req. split.
    + destruct (login_sends self email password w) as [Hone|(r & v & _ & _ & _ & _ & Htwo)].
      * exists []. split; [done|]. by intros q c ?%elem_of_nil.
      * eexists. split; [exact Htwo|].
        intros q c ->%list_elem_of_singleton Hc. simpl in Hc.
        by apply store_tokens_new in Hc.
    + intros r v Hr Hst Hv Hb.
      eexists. split; [by apply (login_lookup_sent self email password w r v)|].
      intros n x Hn Hx. split; intros Hl.
      * rewrite <- (scoped_cookie_loopback host n x Hl). by apply store_tokens_stored.
      * rewrite <- (scoped_cookie_remote host n x Hl). by apply store_tokens_stored.
  - intros self host req jar'. subst jar'. rewrite refresh_equation. cbv zeta.
    fold req host. split.
    + intros c.
      destruct (jar_has_name "refresh_token" (cookies w)); [|by left].
      destruct (server (sent w) req) as [r|e]; [|by (right; left)].
      destruct (status_code r =? 200)%Z; [|by (right; left)].
      assert (∀ jar, c ∈ store_token host r "access_token" jar →
                c ∈ jar ∨ follows_scoping_rule host c) as Hone.
      { intros jar. apply store_token_new. by left. }
      destruct (cookies_getitem r "access_token") as [?|[]];
        destruct (cookies_getitem r "refresh_token") as [?|[]]; simpl; intros Hc;
        try (apply store_tokens_new in Hc as [Hc|Hc]; [by (right; left)|by (right; right)]);
        try (apply Hone in Hc as [Hc|Hc]; [by (right; left)|by (right; right)]);
        by (right; left).
    + intros r n v Hyes Hr Hst Ha Hb Hn Hv.
      apply jar_has_name_true in Hyes. apply Z.eqb_eq in Hst. rewrite Hyes, Hr, Hst.
      assert (scoped_cookie host n v
                ∈ store_tokens host r (cookies (answered extract req w))) as Hstored
        by (by apply store_tokens_stored).
      assert (cookies
                (match cookies_getitem r "access_token" with
                 | Raise CookieConflictError => (Ok false, answered extract req w)
                 | _ =>
                     match cookies_getitem r "refresh_token" with
                     | Raise CookieConflictError =>
                         (Ok false,
                          with_cookies
                            (store_token host r "access_token"
                               (cookies (answered extract req w)))
                            (answered extract req w))
                     | _ =>
                         (Ok true,
                          with_cookies
                            (store_tokens host r (cookies (answered extract req w)))
                            (answered extract req w))
                     end
                 end).2
              = store_tokens host r (cookies (answered extract req w))) as ->.
      { destruct (cookies_getitem_cases r "access_token") as [[x Hx]|[Hx|Hx]]; [| |done];
          rewrite Hx;
          (destruct (cookies_getitem_cases r "refresh_token") as [[y Hy]|[Hy|Hy]];
             [| |done]); by rewrite Hy. }
      split; intros Hl.
      * by rewrite <- (scoped_cookie_loopback host n v Hl).
      * by rewrite <- (scoped_cookie_remote host n v Hl).
Qed.


(** *** The resource chain *)

Lemma make_get_request_filter (self : APIClient) (endpoint : string) (has_raster : bool)
    (w : World) :
  let kwargs : gmap string json := {[ "params" := JObj (has_raster_params has_raster) ]} in
  ∃ first new,
    sent (make_get_request server extract hostname self endpoint kwargs w).2
      = (sent w ++ first :: new)%list ∧
    req_method first = GET ∧
    ∀ req, req ∈ first :: new → req_method req = GET → sends_filter has_raster req.
Proof.
  intros kwargs.
  assert (∀ jar, sends_filter has_raster
                   (mkRequest GET (client_base_url self ++ endpoint) kwargs jar)) as Hget.
  { intros jar. exists (has_raster_params has_raster). split; [done|].
    by destruct has_raster. }
  destruct (make_get_request_sends self endpoint kwargs w) as [jar [H|[H|H]]];
    rewrite H; eexists _, _; (split; [done|]); (split; [done|]);
    intros req Hreq Hm; set_unfold in Hreq;
    destruct Hreq as [->|Hreq]; try apply Hget;
    repeat (destruct Hreq as [->|Hreq]; try apply Hget; try done); done.
Qed.

(** C8.  [get_projects] always sends its GET, [get_flights] sends it once
    the project has its [id] and its client; every GET either of them
    sends, the retry included, has a [params] dictionary in which
    [has_raster] is [True] when the caller passed a true flag and is
    absent otherwise. *)
Theorem has_raster_sent_only_when_requested (has_raster : bool) (w : World) :
  (∀ self : Workspace,
     ∃ first new,
       sent (get_projects server extract hostname self has_raster w).2 = (sent w ++ first :: new)%list ∧
       req_method first = GET ∧
       ∀ req, req ∈ first :: new → req_method req = GET → sends_filter has_raster req) ∧
  (∀ self : gmap string attr,
     ∃ new,
       sent (get_flights server extract hostname py_str self has_raster w).2 = (sent w ++ new)%list ∧
       (∀ req, req ∈ new → req_method req = GET → sends_filter has_raster req) ∧
       (∀ id c, self !! "id" = Some id → self !! "client" = Some (AClient c) →
          ∃ first rest, new = first :: rest ∧ req_method first = GET)).
Proof.
  split.
  - intros self.
    destruct (make_get_request_filter (ws_client self) "/api/v1/projects" has_raster w)
      as (first & new & Hsent & Hfirst & Hall).
    exists first, new. split; [|done].
    rewrite <- Hsent. unfold get_projects. run.
    destruct (make_get_request _ _ _ _ _ _ w) as [[j|e] w']; simpl; [|done].
    destruct (py_iter j) as [items|e]; simpl; [|done].
    by destruct (comprehension _ items).
  - intros self. unfold get_flights, getattr, getattr_client. run.
    destruct (self !! "id") as [id|]; simpl.
    2:{ exists []. rewrite app_nil_r. split; [done|]. split; [|done].
        intros req Hreq. by apply elem_of_nil in Hreq. }
    destruct (self !! "client") as [[c|v]|]; simpl.
    2,3: exists []; rewrite app_nil_r; split; [done|]; split; [|done];
         intros req Hreq; by apply elem_of_nil in Hreq.
    destruct (make_get_request_filter c ("/api/v1/projects/" ++ py_str id ++ "/flights")
                has_raster w) as (first & new & Hsent & Hfirst & Hall).
    exists (first :: new). split; [|split; [done|]].
    + rewrite <- Hsent.
      destruct (make_get_request _ _ _ _ _ _ w) as [[j|e] w']; simpl; [|done].
      destruct (py_iter j) as [items|e]; simpl; [|done].
      by destruct (comprehension _ items).
    + intros ? ? _ _. by exists first, new.
Qed.


(** [s.split('T')] starts with the part of [s] before its first [T]. *)
Lemma py_split_head (s : string) :
  ∃ d t, py_split "T" s = d :: t ∧ ¬ contains_char "T" d ∧
         ((s = d ∧ t = []) ∨ ∃ rest, s = d ++ String "T" rest).
Proof.
  unfold contains_char. induction s as [|c s (d & t & Hsplit & Hfree & Hshape)]; simpl.
  - exists "", []. split; [done|]. split; [|by left].
    simpl. by intros ?%elem_of_nil.
  - destruct (Ascii.eqb_spec c "T") as [->|Hc].
    + exists "", (py_split "T" s). split; [done|]. split.
      * simpl. by intros ?%elem_of_nil.
      * right. by exists s.
    + rewrite Hsplit. exists (String c d), t. split; [done|]. split.
      * simpl. intros [?|?]%elem_of_cons; [congruence|done].
      * destruct Hshape as [[-> ->]|[rest ->]]; [by left|right]. by exists rest.
Qed.

Lemma bind_arguments_ok (kwargs : gmap string json) :
  kwargs !! "self" = None → kwargs !! "client" = None → bind_arguments kwargs = Ok kwargs.
Proof. intros Hs Hc. unfold bind_arguments. by rewrite Hs, Hc. Qed.

Lemma bind_arguments_rejects (kwargs : gmap string json) :
  is_Some (kwargs !! "client") ∨ is_Some (kwargs !! "self") →
  bind_arguments kwargs = Raise TypeError.
Proof.
  intros [Hc|Hs]; unfold bind_arguments.
  - rewrite (bool_decide_eq_true_2 _ Hc). by rewrite orb_true_r.
  - by rewrite (bool_decide_eq_true_2 _ Hs).
Qed.

Lemma dict_update_lookup (d : gmap string attr) (kwargs : gmap string json) (k : string) :
  dict_update d kwargs !! k =
  match kwargs !! k with
  | Some v => Some (AVal v)
  | None => d !! k
  end.
Proof.
  unfold dict_update. rewrite lookup_union, lookup_fmap.
  destruct (kwargs !! k); simpl; [|by rewrite (left_id None _)].
  by destruct (d !! k).
Qed.

(** C7.  A flight built from server data whose [acquisition_date] is a
    string keeps of it the part before its first [T]:
    ["2024-06-10T12:34:56"] becomes ["2024-06-10"], ["2024-06-10"] stays,
    and in every case the stored string has no [T] and is either the
    original or what came before its first [T]. *)
Theorem flight_date_has_no_time (client : APIClient) (kwargs : gmap string json) (s : string) :
  kwargs !! "self" = None → kwargs !! "client" = None →
  kwargs !! "acquisition_date" = Some (JStr s) →
  ∃ o d, Flight client kwargs = Ok o ∧
         o !! "acquisition_date" = Some (AVal (JStr d)) ∧
         ¬ contains_char "T" d ∧
         (s = d ∨ ∃ rest, s = d ++ String "T" rest) ∧
         (s = "2024-06-10T12:34:56" → d = "2024-06-10") ∧
         (s = "2024-06-10" → d = "2024-06-10").
Proof.
  intros Hs Hc Hdate. unfold Flight. rewrite bind_arguments_ok by done. run.
  unfold Flight_init. rewrite dict_update_lookup, Hdate. simpl.
  destruct (py_split_head s) as (d & t & Hsplit & Hfree & Hshape).
  destruct s as [|c s'] eqn:Es.
  - simpl in Hsplit. injection Hsplit as <- <-. simpl.
    eexists _, "". split; [done|]. rewrite dict_update_lookup, Hdate.
    repeat split; try done. by left.
  - rewrite <- Es in *. simpl.
    replace (negb (String.eqb s "")) with true by (rewrite Es; done).
    rewrite Hsplit. simpl.
    eexists _, d. split; [done|]. rewrite lookup_insert_eq.
    repeat split; try done.
    + destruct Hshape as [[-> _]|?]; [by left|by right].
    + intros ->. clear -Hsplit. by injection Hsplit as <- _.
    + intros ->. clear -Hsplit. by injection Hsplit as <- _.
Qed.

(** C10, as the code has it.  Each of the three constructors assigns the
    client first and spreads the server fields after it, but a call
    whose fields include ["client"] (or ["self"]) never reaches that
    body: binding the arguments raises [TypeError].  So with neither key
    present the resource is built, its [client] attribute is the client
    passed in and every other field is the server's, except that a
    flight keeps of a string [acquisition_date] the part before its
    first [T]; with a ["client"] field no resource is built at all. *)
Theorem constructors_keep_client (client : APIClient) (kwargs : gmap string json) :
  (kwargs !! "client" = None → kwargs !! "self" = None →
     ∃ p f d,
       Project client kwargs = Ok p ∧ p !! "client" = Some (AClient client) ∧
       Flight client kwargs = Ok f ∧ f !! "client" = Some (AClient client) ∧
       DataProduct client kwargs = Ok d ∧ d !! "client" = Some (AClient client) ∧
       (∀ k, k ≠ "client" → p !! k = AVal <$> kwargs !! k ∧ d !! k = AVal <$> kwargs !! k) ∧
       (∀ k, k ≠ "client" → k ≠ "acquisition_date" → f !! k = AVal <$> kwargs !! k) ∧
       f !! "acquisition_date"
         = match kwargs !! "acquisition_date" with
           | Some (JStr s) => Some (AVal (JStr (default s (py_split "T" s !! 0%nat))))
           | other => AVal <$> other
           end) ∧
  (is_Some (kwargs !! "client") ∨ is_Some (kwargs !! "self") →
     Project client kwargs = Raise TypeError ∧
     Flight client kwargs = Raise TypeError ∧
     DataProduct client kwargs = Raise TypeError).
Proof.
  split.
  - intros Hc Hs. unfold Project, Flight, DataProduct.
    rewrite bind_arguments_ok by done. run.
    set (self := dict_update (<["client":=AClient client]> ∅) kwargs).
    assert (self !! "client" = Some (AClient client)) as Hclient
      by (subst self; by rewrite dict_update_lookup, Hc, lookup_insert_eq).
    assert (∀ k, k ≠ "client" → self !! k = AVal <$> kwargs !! k) as Hfields.
    { intros k Hk. subst self. rewrite dict_update_lookup.
      destruct (kwargs !! k); [done|]. by rewrite lookup_insert_ne, lookup_empty. }
    assert (∃ f, Flight_init client kwargs = Ok f ∧ f !! "client" = Some (AClient client) ∧
              (∀ k, k ≠ "client" → k ≠ "acquisition_date" → f !! k = AVal <$> kwargs !! k) ∧
              f !! "acquisition_date"
                = match kwargs !! "acquisition_date" with
                  | Some (JStr s) => Some (AVal (JStr (default s (py_split "T" s !! 0%nat))))
                  | other => AVal <$> other
                  end) as (f & Hf & Hfc & Hff & Hfd).
    { unfold Flight_init. fold self.
      pose proof (Hfields "acquisition_date" ltac:(done)) as Hdate. rewrite Hdate.
      destruct (kwargs !! "acquisition_date") as [v|] eqn:Hv; simpl.
      2:{ exists self. by repeat split; auto. }
      destruct v as [|b|n|s|l|m]; simpl;
        try (exists self; by repeat split; auto);
        try (destruct b; exists self; by repeat split; auto);
        try (destruct (negb (n =? 0)%Z); exists self; by repeat split; auto);
        try (destruct l; exists self; by repeat split; auto);
        try (destruct (map_to_list m); exists self; by repeat split; auto).
      destruct (String.eqb_spec s "") as [->|Hne]; simpl.
      { exists self. by repeat split; auto. }
      destruct (py_split_head s) as (d & t & Hsplit & _).
      rewrite Hsplit. simpl.
      eexists. split; [done|]. split; [by rewrite lookup_insert_ne|].
      split; [|by rewrite lookup_insert_eq].
      intros k Hk Hk'. rewrite lookup_insert_ne by done. by apply Hfields. }
    exists self, f, self. unfold Project_init, DataProduct_init. fold self.
    repeat split; auto.
  - intros Hc. unfold Project, Flight, DataProduct.
    by rewrite bind_arguments_rejects.
Qed.


(** ** Further properties of the module *)

(** *** GET requests *)

(** X1.  A first answer that is not 401, or any answer on the refresh
    endpoint, ends the call at once: one request has been sent, no
    refresh is tried and the module itself does not touch the jar, which
    is as the exchange left it.  The outcome is the decoded body,
    [HTTPError] carrying the response for a 4xx or 5xx status, or the
    decoding error for a body that is not JSON.  An exception of the
    transport is passed on unchanged. *)
Theorem get_single_exchange (self : APIClient) (endpoint : string)
    (kwargs : gmap string json) (w : World) :
  let call := make_get_request server extract hostname self endpoint kwargs w in
  let req := get_request self endpoint kwargs w in
  (∀ r, server (sent w) req = Ok r →
     status_code r ≠ 401 ∨ endpoint = "/api/v1/auth/refresh-token" →
     call.2 = answered extract req w ∧
     ((400 ≤ status_code r < 600)%Z → call.1 = Raise (HTTPError r)) ∧
     (¬ (400 ≤ status_code r < 600)%Z → ∀ j, body r = Some j → call.1 = Ok j) ∧
     (¬ (400 ≤ status_code r < 600)%Z → body r = None → call.1 = Raise JSONDecodeError)) ∧
  (∀ e, server (sent w) req = Raise e → call = (Raise e, answered extract req w)).
Proof.
  intros call req. subst call.
  rewrite make_get_request_equation. cbv zeta. fold req.
  split.
  - intros r -> Hplain.
    assert ((status_code r =? 401)%Z && negb (String.eqb endpoint "/api/v1/auth/refresh-token")
            = false) as ->.
    { destruct Hplain as [Hst| ->].
      - apply Z.eqb_neq in Hst. by rewrite Hst.
      - by rewrite andb_false_r. }
    simpl. split; [done|].
    unfold response_outcome, raise_for_status, response_json. run.
    destruct (400 <=? status_code r)%Z eqn:E1; destruct (status_code r <? 600)%Z eqn:E2; simpl.
    all: try apply Z.leb_le in E1; try apply Z.leb_gt in E1.
    all: try apply Z.ltb_lt in E2; try apply Z.ltb_ge in E2.
    all: repeat split; try (intros; lia).
    all: try (intros _ j ->; done); try (intros _ ->; done).
  - by intros e ->.
Qed.

(** X2.  When the refresh succeeded and the second answer is again an
    error status, the call raises [HTTPError] for that answer after
    exactly three requests, and [cookies.clear()] is not reached: the jar
    is the one the refresh left, as the second exchange changed it. *)
Theorem get_retry_failure_keeps_cookies (self : APIClient) (endpoint : string)
    (kwargs : gmap string json) (w : World) (r : Response) (w2 : World) (r2 : Response) :
  let call := make_get_request server extract hostname self endpoint kwargs w in
  let req := get_request self endpoint kwargs w in
  let retry := get_request self endpoint kwargs w2 in
  endpoint ≠ "/api/v1/auth/refresh-token" →
  server (sent w) req = Ok r → status_code r = 401 →
  _refresh_access_token server extract hostname self (answered extract req w) = (Ok true, w2) →
  server (sent w2) retry = Ok r2 →
  (400 ≤ status_code r2 < 600)%Z →
  call.1 = Raise (HTTPError r2) ∧
  cookies call.2 = extract (sent w2) retry (cookies w2) ∧
  sent call.2
    = (sent w ++ [req; refresh_request self (answered extract req w); retry])%list.
Proof.
  intros call req retry Hne Hr Hst Hrefresh Hr2 Herr. subst call.
  rewrite make_get_request_equation. cbv zeta. fold req.
  rewrite Hr, Hst. apply String.eqb_neq in Hne. rewrite Hne. simpl.
  rewrite Hrefresh. fold retry. rewrite Hr2. simpl. split; [|split; [done|]].
  - unfold response_outcome, raise_for_status. run.
    destruct Herr as [H1%Z.leb_le H2%Z.ltb_lt]. by rewrite H1, H2.
  - apply refresh_sends in Hrefresh as [[? _]|(Hsent & _)]; [done|].
    rewrite Hsent. simpl. by rewrite <- !app_assoc.
Qed.

(** X4.  After the session-expired error nothing is left to work with: on
    the session the call leaves behind, building an [APIClient] or a
    [Workspace] fails with the missing-token error, and without any
    request. *)
Theorem expired_session_needs_login (self : APIClient) (endpoint : string)
    (kwargs : gmap string json) (w : World) (r : Response) (w2 : World)
    (base_url api_key : string) :
  let call := make_get_request server extract hostname self endpoint kwargs w in
  let req := get_request self endpoint kwargs w in
  endpoint ≠ "/api/v1/auth/refresh-token" →
  server (sent w) req = Ok r → status_code r = 401 →
  _refresh_access_token server extract hostname self (answered extract req w)
    = (Ok false, w2) →
  call.1 = Raise SessionExpiredError ∧
  APIClient_init base_url call.2 = (Raise ConfigError, call.2) ∧
  Workspace_init base_url api_key call.2 = (Raise ConfigError, call.2).
Proof.
  intros call req Hne Hr Hst Hrefresh. subst call.
  rewrite make_get_request_equation. cbv zeta. fold req.
  rewrite Hr, Hst. apply String.eqb_neq in Hne. rewrite Hne. simpl.
  rewrite Hrefresh. simpl. by split.
Qed.

(** *** Login, continued *)

Lemma login_after_lookup (self : Auth) (email password : string) (w : World)
    (r ru : Response) (v : string) :
  let req := token_request self email password in
  let host := default "" (hostname (auth_base_url self)) in
  let stored := with_cookies (store_tokens host r (cookies w)) (log_request req w) in
  server (sent w) req = Ok r → status_code r = 200 →
  cookies_getitem r "access_token" = Ok v → ¬ ambiguous r "refresh_token" →
  server (sent stored) (user_request self stored) = Ok ru →
  login server extract hostname self email password w
  = if (status_code ru =? 200)%Z
    then keep_api_key ru (answered extract (user_request self stored) stored)
    else (Raise AuthError_user_lookup, answered extract (user_request self stored) stored).
Proof.
  intros req host stored Hr Hst Hv Hb Hru. subst stored.
  rewrite login_equation. cbv zeta. fold req host.
  rewrite Hr, Hst. simpl. rewrite (cookies_contains_found r _ v Hv), Hv.
  simpl in Hru.
  destruct (cookies_getitem_cases r "refresh_token") as [[y Hy]|[Hy|Hy]]; [| |done];
    by rewrite Hy, Hru.
Qed.


(** X5.  One [login] sends the credentials once, as form data and
    without any cookie of the session, and then at most the user lookup;
    the lookup is sent with the new [access_token] cookie already in the
    jar. *)
Theorem login_exchanges (self : Auth) (email password : string) (w : World) :
  let call := login server extract hostname self email password w in
  let req := token_request self email password in
  let host := default "" (hostname (auth_base_url self)) in
  sent call.2 = (sent w ++ [req])%list ∨
  ∃ r v jar,
    server (sent w) req = Ok r ∧ cookies_getitem r "access_token" = Ok v ∧
    scoped_cookie host "access_token" v ∈ jar ∧
    sent call.2
      = (sent w ++ [req; mkRequest GET (auth_base_url self ++ "/api/v1/users/current") ∅ jar])%list.
Proof.
  intros call req host.
  destruct (login_sends self email password w) as [Hone|(r & v & Hr & _ & Hv & _ & Htwo)];
    [by left|right].
  exists r, v, (store_tokens host r (cookies w)).
  split; [done|]. split; [done|]. split; [by apply store_tokens_stored; [left|]|done].
Qed.

(** X6.  A 200 answer of the token endpoint that carries no
    [access_token] cookie is a failed login: the error names status 200,
    the jar is unchanged and the user lookup is not sent. *)
Theorem login_200_without_cookie (self : Auth) (email password : string) (w : World)
    (r : Response) :
  let req := token_request self email password in
  server (sent w) req = Ok r →
  status_code r = 200 →
  (∀ name value, (name, value) ∈ resp_cookies r → name ≠ "access_token") →
  login server extract hostname self email password w
    = (Raise (ValueError "Login failed with status 200"), log_request req w).
Proof.
  intros req Hr Hst Hnone.
  rewrite login_equation. cbv zeta. fold req.
  rewrite Hr, Hst.
  rewrite (cookies_contains_missing r _ (cookies_getitem_absent r _ Hnone)). done.
Qed.

(** X7.  What a successful lookup leaves on the session: a user record
    that is an object with a truthy [api_access_token] sets [api_key] to
    it; an object without the key, or with a falsy one, leaves [api_key]
    alone.  A 200 lookup whose body is not JSON, or is [null], a number
    or a boolean, makes [login] raise although both answers were 200.
    In each case the jar is what the lookup exchange made of the jar with
    the tokens stored. *)
Theorem login_api_key (self : Auth) (email password : string) (w : World)
    (r ru : Response) (v : string) :
  let call := login server extract hostname self email password w in
  let req := token_request self email password in
  let host := default "" (hostname (auth_base_url self)) in
  let stored := with_cookies (store_tokens host r (cookies w)) (log_request req w) in
  server (sent w) req = Ok r → status_code r = 200 →
  cookies_getitem r "access_token" = Ok v → ¬ ambiguous r "refresh_token" →
  server (sent stored) (user_request self stored) = Ok ru → status_code ru = 200 →
  cookies call.2
    = extract (sent stored) (user_request self stored) (store_tokens host r (cookies w)) ∧
  (∀ m k, body ru = Some (JObj m) → m !! "api_access_token" = Some k → truthy k = true →
     call.1 = Ok tt ∧ api_key call.2 = Some k) ∧
  (∀ m, body ru = Some (JObj m) →
     m !! "api_access_token" = None
     ∨ (∃ k, m !! "api_access_token" = Some k ∧ truthy k = false) →
     call.1 = Ok tt ∧ api_key call.2 = api_key w) ∧
  (body ru = None → call.1 = Raise JSONDecodeError) ∧
  (∀ j, body ru = Some j → (j = JNull ∨ (∃ b, j = JBool b) ∨ ∃ n, j = JNum n) →
     call.1 = Raise TypeError).
Proof.
  intros call req host stored Hr Hst Hv Hb Hru Hlookup. subst call stored.
  rewrite (login_after_lookup self email password w r ru v) by done.
  apply Z.eqb_eq in Hlookup. rewrite Hlookup.
  split; [by rewrite (proj1 (keep_api_key_frame ru _))|].
  unfold keep_api_key, response_json. run.
  split; [|split; [|split]].
  - intros m k -> Hk Htruthy. simpl. rewrite Hk. simpl. by rewrite Htruthy.
  - intros m -> [Hnone|(k & Hk & Hfalsy)]; simpl.
    + by rewrite Hnone.
    + rewrite Hk. simpl. by rewrite Hfalsy.
  - by intros ->.
  - intros j -> [->|[[b ->]|[n ->]]]; done.
Qed.

(** X10.  A new [Auth] keeps the server URL without its trailing slashes,
    so that joining an endpoint never doubles the slash, and starts on an
    empty session: nothing has been sent, and no client can be built on
    it before a login. *)
Theorem Auth_init_fresh (base_url : string) (w : World) :
  let call := Auth_init base_url w in
  ∃ a k, call.1 = Ok a ∧
         base_url = auth_base_url a ++ slashes k ∧
         (∀ p, auth_base_url a ≠ p ++ "/") ∧
         cookies call.2 = [] ∧ api_key call.2 = None ∧ sent call.2 = sent w ∧
         ∀ url, APIClient_init url call.2 = (Raise ConfigError, call.2).
Proof.
  intros call. destruct (rstrip_slash_spec base_url) as [[k Hk] Hend].
  exists (mkAuth (rstrip_slash base_url)), k. by repeat split.
Qed.


(** *** Listings *)

(** Each listing is its GET followed by a pure construction of the
    children. *)
Lemma get_projects_equation (self : Workspace) (has_raster : bool) (w : World) :
  get_projects server extract hostname self has_raster w =
  let call := make_get_request server extract hostname (ws_client self) "/api/v1/projects"
                {[ "params" := JObj (has_raster_params has_raster) ]} w in
  (response_data ← call.1;
   items ← py_iter response_data;
   projects ← comprehension
                (λ project_data, kwargs ← unpack project_data; Project (ws_client self) kwargs)
                items;
   Ok (mkProjectCollection projects), call.2).
Proof.
  unfold get_projects. run.
  destruct (make_get_request _ _ _ _ _ _ w) as [[j|e] w']; simpl; [|done].
  destruct (py_iter j) as [items|e]; simpl; [|done].
  by destruct (comprehension _ items).
Qed.

Lemma get_flights_equation (self : gmap string attr) (has_raster : bool) (w : World)
    (id : attr) (c : APIClient) :
  self !! "id" = Some id → self !! "client" = Some (AClient c) →
  get_flights server extract hostname py_str self has_raster w =
  let call := make_get_request server extract hostname c
                ("/api/v1/projects/" ++ py_str id ++ "/flights")
                {[ "params" := JObj (has_raster_params has_raster) ]} w in
  (response_data ← call.1;
   items ← py_iter response_data;
   flights ← comprehension (λ flight_data, kwargs ← unpack flight_data; Flight c kwargs) items;
   Ok (mkFlightCollection flights), call.2).
Proof.
  intros Hid Hc. unfold get_flights, getattr, getattr_client. run. rewrite Hid, Hc. simpl.
  destruct (make_get_request _ _ _ _ _ _ w) as [[j|e] w']; simpl; [|done].
  destruct (py_iter j) as [items|e]; simpl; [|done].
  by destruct (comprehension _ items).
Qed.

Lemma get_data_products_equation (self : gmap string attr) (w : World)
    (project_id id : attr) (c : APIClient) :
  self !! "project_id" = Some project_id → self !! "id" = Some id →
  self !! "client" = Some (AClient c) →
  get_data_products server extract hostname py_str self w =
  let call := make_get_request server extract hostname c
                ("/api/v1/projects/" ++ py_str project_id ++ "/flights/" ++ py_str id
                 ++ "/data_products") ∅ w in
  (response_data ← call.1;
   items ← py_iter response_data;
   products ← comprehension
                (λ product_data, kwargs ← unpack product_data; DataProduct c kwargs) items;
   Ok (mkDataProductCollection products), call.2).
Proof.
  intros Hpid Hid Hc. unfold get_data_products, getattr, getattr_client. run.
  rewrite Hpid, Hid, Hc. simpl.
  destruct (make_get_request _ _ _ _ _ _ w) as [[j|e] w']; simpl; [|done].
  destruct (py_iter j) as [items|e]; simpl; [|done].
  by destruct (comprehension _ items).
Qed.

Lemma Flight_init_total (c : APIClient) (kwargs : gmap string json) :
  ∃ o, Flight_init c kwargs = Ok o.
Proof.
  unfold Flight_init.
  destruct (dict_update _ kwargs !! "acquisition_date") as [a|]; [|by eauto].
  destruct (attr_truthy a); [|by eauto].
  destruct a as [?|[| | |s| |]]; try by eauto.
  destruct (py_split_head s) as (d & t & -> & _). simpl. by eauto.
Qed.

Lemma bad_item_raises (item : json) (build : gmap string json → result (gmap string attr)) :
  bad_item item →
  (kwargs ← unpack item; kwargs ← bind_arguments kwargs; build kwargs) = Raise TypeError.
Proof.
  destruct item as [| | | | |m]; try done. simpl.
  intros Hbad. run. rewrite bind_arguments_rejects; [done|]. tauto.
Qed.

(** X11.  When the GET of [get_projects] or [get_data_products] yields an
    array of objects, none with a field named [client] or [self], the
    collection has one resource per object, in the order of the array,
    each made of the object's fields and the shared client; an empty
    array gives an empty collection. *)
Theorem listing_builds_collection (ms : list (gmap string json)) (w w' : World) :
  (∀ m, m ∈ ms → m !! "client" = None ∧ m !! "self" = None) →
  (∀ (self : Workspace) (has_raster : bool),
     make_get_request server extract hostname (ws_client self) "/api/v1/projects"
       {[ "params" := JObj (has_raster_params has_raster) ]} w = (Ok (JArr (JObj <$> ms)), w') →
     get_projects server extract hostname self has_raster w
       = (Ok (mkProjectCollection (Project_init (ws_client self) <$> ms)), w')) ∧
  (∀ (self : gmap string attr) project_id id c,
     self !! "project_id" = Some project_id → self !! "id" = Some id →
     self !! "client" = Some (AClient c) →
     make_get_request server extract hostname c
       ("/api/v1/projects/" ++ py_str project_id ++ "/flights/" ++ py_str id
        ++ "/data_products") ∅ w = (Ok (JArr (JObj <$> ms)), w') →
     get_data_products server extract hostname py_str self w
       = (Ok (mkDataProductCollection (DataProduct_init c <$> ms)), w')).
Proof.
  intros Hclean.
  assert (∀ (build : gmap string json → gmap string attr),
            comprehension (λ data, kwargs ← unpack data; kwargs ← bind_arguments kwargs;
                                   Ok (build kwargs)) (JObj <$> ms)
            = Ok (build <$> ms)) as Hbuild.
  { intros build.
    rewrite (comprehension_map _ (λ data, match data with JObj m => build m | _ => build ∅ end)).
    - f_equal. by rewrite <- list_fmap_compose.
    - intros x (m & -> & Hm)%list_elem_of_fmap. simpl. run.
      destruct (Hclean m Hm). by rewrite bind_arguments_ok. }
  split.
  - intros self has_raster Hget. rewrite get_projects_equation. cbv zeta.
    rewrite Hget. simpl. unfold Project. run.
    by rewrite (Hbuild (Project_init (ws_client self))).
  - intros self project_id id c Hpid Hid Hc Hget.
    rewrite (get_data_products_equation self w project_id id c) by done. cbv zeta.
    rewrite Hget. simpl. unfold DataProduct. run.
    by rewrite (Hbuild (DataProduct_init c)).
Qed.

(** X12.  One element that is not an object, or that has a field named
    [client] or [self], spoils the whole listing: [get_projects] and
    [get_flights] raise [TypeError] although the GET succeeded, and so
    they do when the body is [null], a boolean or a number. *)
Theorem listing_rejects_bad_items (j : json) (w w' : World) :
  (j = JNull ∨ (∃ b, j = JBool b) ∨ (∃ n, j = JNum n)
   ∨ ∃ items item, j = JArr items ∧ item ∈ items ∧ bad_item item) →
  (∀ (self : Workspace) (has_raster : bool),
     make_get_request server extract hostname (ws_client self) "/api/v1/projects"
       {[ "params" := JObj (has_raster_params has_raster) ]} w = (Ok j, w') →
     get_projects server extract hostname self has_raster w = (Raise TypeError, w')) ∧
  (∀ (self : gmap string attr) (has_raster : bool) id c,
     self !! "id" = Some id → self !! "client" = Some (AClient c) →
     make_get_request server extract hostname c ("/api/v1/projects/" ++ py_str id ++ "/flights")
       {[ "params" := JObj (has_raster_params has_raster) ]} w = (Ok j, w') →
     get_flights server extract hostname py_str self has_raster w = (Raise TypeError, w')).
Proof.
  intros Hbad.
  assert (∀ build : gmap string json → result (gmap string attr),
            (∀ kwargs e, build kwargs = Raise e → e = TypeError) →
            (items ← py_iter j;
             comprehension (λ data, kwargs ← unpack data; kwargs ← bind_arguments kwargs;
                                    build kwargs) items) = Raise TypeError) as Hraise.
  { intros build Hbuild.
    destruct Hbad as [->|[[b ->]|[[n ->]|(items & item & -> & Hin & Hitem)]]]; try done.
    simpl. run. apply comprehension_raises.
    - intros x e _. destruct x as [| | | | |m]; simpl; try by intros [= <-].
      unfold bind_arguments. destruct (_ || _); simpl; [by intros [= <-]|]. apply Hbuild.
    - exists item, TypeError. split; [done|]. by apply (bad_item_raises item build). }
  split.
  - intros self has_raster Hget. rewrite get_projects_equation. cbv zeta.
    rewrite Hget. simpl. f_equal.
    assert (∀ kwargs e, Ok (Project_init (ws_client self) kwargs) = Raise e → e = TypeError)
      as Hside by done.
    specialize (Hraise _ Hside).
    unfold Project. run. destruct (py_iter j) as [items|e].
    + by rewrite Hraise.
    + by injection Hraise as ->.
  - intros self has_raster id c Hid Hc Hget.
    rewrite (get_flights_equation self has_raster w id c) by done. cbv zeta.
    rewrite Hget. simpl. f_equal.
    assert (∀ kwargs e, Flight_init c kwargs = Raise e → e = TypeError) as Hside.
    { intros kwargs e He. destruct (Flight_init_total c kwargs) as [o Ho]. congruence. }
    specialize (Hraise _ Hside).
    unfold Flight. run. destruct (py_iter j) as [items|e].
    + by rewrite Hraise.
    + by injection Hraise as ->.
Qed.


Lemma Flight_built (c : APIClient) (kwargs : gmap string json) (o : gmap string attr) :
  Flight c kwargs = Ok o →
  o !! "client" = Some (AClient c) ∧
  ∀ d, o !! "acquisition_date" = Some (AVal (JStr d)) → ¬ contains_char "T" d.
Proof.
  unfold Flight, bind_arguments. run.
  destruct (kwargs !! "self") as [?|] eqn:Hs; [done|].
  destruct (kwargs !! "client") as [?|] eqn:Hc; [done|]. simpl.
  unfold Flight_init.
  assert (dict_update (<["client":=AClient c]> ∅) kwargs !! "client" = Some (AClient c))
    as Hclient by (by rewrite dict_update_lookup, Hc, lookup_insert_eq).
  assert (¬ contains_char "T" "") as Hempty.
  { unfold contains_char. simpl. by intros ?%elem_of_nil. }
  destruct (dict_update _ kwargs !! "acquisition_date") as [a|] eqn:Hdate.
  2:{ intros [= <-]. split; [done|]. intros d. by rewrite Hdate. }
  destruct (attr_truthy a) eqn:Htruthy.
  - destruct a as [c'|v].
    { intros [= <-]. split; [done|]. intros d. by rewrite Hdate. }
    destruct v as [| | |s| |]; try (intros [= <-]; split; [done|]; intros d; by rewrite Hdate).
    destruct (py_split_head s) as (d & t & -> & Hfree & _). simpl.
    intros [= <-]. split; [by rewrite lookup_insert_ne|].
    intros d'. rewrite lookup_insert_eq. by intros [= <-].
  - intros [= <-]. split; [done|]. intros d. rewrite Hdate. intros [= ->].
    simpl in Htruthy. by destruct d.
Qed.

(** X13.  Every flight of a collection returned by [get_flights] holds
    the client of the project it was listed from, and if its
    [acquisition_date] is a string, that string has no [T]. *)
Theorem get_flights_normalises_every_flight (self : gmap string attr) (has_raster : bool)
    (w w' : World) (flights : FlightCollection) :
  get_flights server extract hostname py_str self has_raster w = (Ok flights, w') →
  ∃ c, self !! "client" = Some (AClient c) ∧
       ∀ f, f ∈ flight_collection flights →
            f !! "client" = Some (AClient c) ∧
            ∀ d, f !! "acquisition_date" = Some (AVal (JStr d)) → ¬ contains_char "T" d.
Proof.
  intros Hcall.
  destruct (self !! "id") as [id|] eqn:Hid.
  2:{ unfold get_flights, getattr in Hcall. run. by rewrite Hid in Hcall. }
  destruct (self !! "client") as [[c|v]|] eqn:Hc.
  2,3: unfold get_flights, getattr, getattr_client in Hcall; run;
       by rewrite Hid, Hc in Hcall.
  exists c. split; [done|].
  rewrite (get_flights_equation self has_raster w id c) in Hcall by done. cbv zeta in Hcall.
  destruct (make_get_request _ _ _ _ _ _ w) as [[j|e] w1]; [|done]. simpl in Hcall. run.
  destruct (py_iter j) as [items|e]; [|done].
  destruct (comprehension _ items) as [fs|e] eqn:Hfs; [|done].
  injection Hcall as <- <-. simpl.
  intros f Hf. apply comprehension_elem in Hfs as [_ Helem].
  destruct (Helem f Hf) as (x & _ & Hx).
  destruct (unpack x) as [kwargs|e]; [|done]. by apply (Flight_built c kwargs).
Qed.

Lemma make_get_request_requests (self : APIClient) (endpoint : string)
    (kwargs : gmap string json) (w : World) :
  ∃ rest,
    sent (make_get_request server extract hostname self endpoint kwargs w).2
      = (sent w ++ get_request self endpoint kwargs w :: rest)%list ∧
    ∀ q, q ∈ rest → req_method q = GET →
         req_url q = client_base_url self ++ endpoint ∧ req_kwargs q = kwargs.
Proof.
  destruct (make_get_request_sends self endpoint kwargs w) as [jar [H|[H|H]]];
    rewrite H; eexists; (split; [done|]); intros q Hq Hm; set_unfold in Hq.
  - done.
  - by destruct Hq as [->|[]].
  - destruct Hq as [->|[->|[]]]; done.
Qed.

(** X14.  A flight is addressed through its project: [get_data_products]
    without a [project_id], or without an [id], raises [AttributeError]
    and sends nothing.  With both and a client, the first request is a
    GET of [/api/v1/projects/<project_id>/flights/<id>/data_products]
    with no keyword argument, hence no [has_raster] filter, and any later
    GET of the call repeats it. *)
Theorem get_data_products_endpoint (self : gmap string attr) (w : World) :
  let call := get_data_products server extract hostname py_str self w in
  (self !! "project_id" = None → call = (Raise (AttributeError "project_id"), w)) ∧
  (is_Some (self !! "project_id") → self !! "id" = None →
     call = (Raise (AttributeError "id"), w)) ∧
  (∀ project_id id c,
     self !! "project_id" = Some project_id → self !! "id" = Some id →
     self !! "client" = Some (AClient c) →
     let url := client_base_url c ++ "/api/v1/projects/" ++ py_str project_id
                ++ "/flights/" ++ py_str id ++ "/data_products" in
     ∃ rest, sent call.2 = (sent w ++ mkRequest GET url ∅ (cookies w) :: rest)%list ∧
             ∀ q, q ∈ rest → req_method q = GET → req_url q = url ∧ req_kwargs q = ∅).
Proof.
  intros call. subst call. split; [|split].
  - intros Hpid. unfold get_data_products, getattr. run. by rewrite Hpid.
  - intros [pid Hpid] Hid. unfold get_data_products, getattr. run. by rewrite Hpid, Hid.
  - intros project_id id c Hpid Hid Hc url.
    rewrite (get_data_products_equation self w project_id id c) by done. cbv zeta.
    apply make_get_request_requests.
Qed.


(** *** The workers *)

Lemma try_except_emits {A B : Type} (body : M A) (k : A → B) (h : exn → B) (w : World) :
  try_except (a ← body; mret (k a)) (λ e, mret (h e)) w
  = (Ok (match (body w).1 with Ok a => k a | Raise e => h e end), (body w).2).
Proof. unfold try_except. run. by destruct (body w) as [[a|e] w']. Qed.




(** X16.  The projects worker on an expired session: when the listing is
    answered 401 and the jar holds no [refresh_token] cookie when the
    refresh is tried, the worker emits [error] with the session-expired
    message, after one request, and the jar is empty. *)
Theorem ProjectsWorker_expired_session (workspace : Workspace) (w : World) (r : Response) :
  let run := ProjectsWorker_run server extract hostname library_message workspace w in
  let req := get_request (ws_client workspace) "/api/v1/projects"
               {[ "params" := JObj {[ "has_raster" := JBool true ]} ]} w in
  server (sent w) req = Ok r → status_code r = 401 →
  (∀ c, c ∈ cookies (answered extract req w) → cookie_name c ≠ "refresh_token") →
  run = (Ok (error "Session expired. Please login again."),
         with_cookies [] (answered extract req w)).
Proof.
  intros run req Hr Hst Hno. subst run req. unfold ProjectsWorker_run.
  rewrite try_except_emits, get_projects_equation. cbv zeta. simpl.
  rewrite make_get_request_equation. cbv zeta.
  rewrite Hr, Hst. simpl.
  rewrite refresh_equation. apply jar_has_name_false in Hno. simpl in Hno |- *.
  by rewrite Hno.
Qed.

(** X17.  A resource whose server data has a field named like the
    listing method cannot be listed: the flights worker on a project with
    a [get_flights] field, and the data products worker on a flight with
    a [get_data_products] field, emit [error] and send nothing; so does
    the flights worker on a project without [id]. *)
Theorem worker_on_unusable_resource (resource : gmap string attr) (w : World) :
  (is_Some (resource !! "get_flights") →
     FlightsWorker_run server extract hostname py_str library_message resource w
       = (Ok (error (library_message TypeError)), w)) ∧
  (is_Some (resource !! "get_data_products") →
     DataProductsWorker_run server extract hostname py_str library_message resource w
       = (Ok (error (library_message TypeError)), w)) ∧
  (resource !! "get_flights" = None → resource !! "id" = None →
     FlightsWorker_run server extract hostname py_str library_message resource w
       = (Ok (error (library_message (AttributeError "id"))), w)).
Proof.
  split; [|split].
  - intros [a Ha]. unfold FlightsWorker_run, call_method. by rewrite Ha.
  - intros [a Ha]. unfold DataProductsWorker_run, call_method. by rewrite Ha.
  - intros Hmethod Hid. unfold FlightsWorker_run, call_method. rewrite Hmethod.
    rewrite try_except_emits. unfold get_flights, getattr. run. by rewrite Hid.
Qed.

Lemma comprehension_clean (ms : list (gmap string json))
    (build : gmap string json → gmap string attr) :
  (∀ m, m ∈ ms → m !! "client" = None ∧ m !! "self" = None) →
  comprehension (λ data, kwargs ← unpack data; kwargs ← bind_arguments kwargs;
                         Ok (build kwargs)) (JObj <$> ms)
  = Ok (build <$> ms).
Proof.
  intros Hclean.
  rewrite (comprehension_map _ (λ data, match data with JObj m => build m | _ => build ∅ end)).
  - f_equal. by rewrite <- list_fmap_compose.
  - intros x (m & -> & Hm)%list_elem_of_fmap. simpl. run.
    destruct (Hclean m Hm). by rewrite bind_arguments_ok.
Qed.

(** X18.  The projects worker on a healthy session: when the listing
    yields an array of objects without [client] or [self] fields, the
    worker emits [finished] with one project per object, in the order of
    the server. *)
Theorem ProjectsWorker_finished (workspace : Workspace) (ms : list (gmap string json))
    (w w' : World) :
  (∀ m, m ∈ ms → m !! "client" = None ∧ m !! "self" = None) →
  make_get_request server extract hostname (ws_client workspace) "/api/v1/projects"
    {[ "params" := JObj {[ "has_raster" := JBool true ]} ]} w = (Ok (JArr (JObj <$> ms)), w') →
  ProjectsWorker_run server extract hostname library_message workspace w
    = (Ok (finished (Project_init (ws_client workspace) <$> ms)), w').
Proof.
  intros Hclean Hget. unfold ProjectsWorker_run.
  rewrite try_except_emits, get_projects_equation. cbv zeta. simpl.
  change (has_raster_params true) with ({[ "has_raster" := JBool true ]} : gmap string json).
  rewrite Hget. simpl. unfold Project.
  pose proof (comprehension_clean ms (Project_init (ws_client workspace)) Hclean) as Hbuilt.
  run. by rewrite Hbuilt.
Qed.

(** *** The current user *)

(** X19.  [get_current_user] sends one GET and does nothing to the
    session beyond that exchange.  Any status but 200 gives [None]
    without an error.  A 200 answer with an object gives the user, each
    of the five fields being the object's value or [None] when the object
    lacks it; a 200 answer whose body is JSON but not an object raises
    [AttributeError], one that is not JSON raises the decoding error. *)
Theorem get_current_user_outcomes (self : Auth) (w : World) (r : Response) :
  let call := get_current_user server extract self w in
  let req := user_request self w in
  server (sent w) req = Ok r →
  call.2 = answered extract req w ∧
  (status_code r ≠ 200 → call.1 = Ok None) ∧
  (status_code r = 200 →
     (∀ m, body r = Some (JObj m) →
        call.1 = Ok (Some (mkUser (default JNull (m !! "id"))
                                  (default JNull (m !! "email"))
                                  (default JNull (m !! "first_name"))
                                  (default JNull (m !! "last_name"))
                                  (default JNull (m !! "api_access_token"))))) ∧
     (∀ j, body r = Some j → (∀ m, j ≠ JObj m) → call.1 = Raise (AttributeError "get")) ∧
     (body r = None → call.1 = Raise JSONDecodeError)).
Proof.
  intros call req Hr. subst call. unfold get_current_user, session_get, session_send. run.
  change (mkRequest GET (auth_base_url self ++ "/api/v1/users/current") ∅ (cookies w)) with req.
  rewrite Hr. simpl.
  destruct (status_code r =? 200)%Z eqn:Hst; simpl.
  - apply Z.eqb_eq in Hst. unfold response_json, User_init. run.
    destruct (body r) as [j|]; simpl.
    + destruct j as [| | | | |m]; simpl; (split; [done|]); (split; [done|]); intros _;
        (split; [by intros ? [= <-] | split; [|done]]);
        intros j' [= <-] Hobj; try done. by destruct (Hobj m).
    + split; [done|]. split; [done|]. intros _. split; [done|]. split; [done|done].
  - apply Z.eqb_neq in Hst. split; [done|]. split; [done|]. done.
Qed.


End Properties.

Lemma APIClient_init_fail_fast_witness :
  APIClient_init Scenario.base_url fresh_session = (Raise ConfigError, fresh_session) ∧
  Workspace_init Scenario.base_url "" Scenario.access_only
    = (Ok (mkWorkspace "" Scenario.base_url Scenario.client), Scenario.access_only).
Proof.
  split.
  - apply (APIClient_init_fail_fast Scenario.base_url "" fresh_session).
    intros c Hc. by apply elem_of_nil in Hc.
  - apply (APIClient_init_fail_fast Scenario.base_url "" Scenario.access_only).
    eexists. split; [apply list_elem_of_here | reflexivity].
Defined.

(** ** The statements on the scenarios *)

Example split_on_each_T : py_split "T" "TaTT" = [""; "a"; ""; ""].
Proof. reflexivity. Qed.

Example rstrip_all_slashes : rstrip_slash "https://d2s.example.org//" = "https://d2s.example.org".
Proof. reflexivity. Qed.

Example browse_healthy :
  let run := Scenario.browse Scenario.healthy fresh_session in
  run.1 = Ok (mkProjectCollection [Project_init Scenario.client {[ "id" := JStr "p1" ]}]) ∧
  api_key run.2 = Some (JStr "key") ∧
  cookies run.2 = [mkCookie "access_token" "a1" (Some "d2s.example.org") "/"] ∧
  req_method <$> sent run.2 = [POST; GET; GET].
Proof. vm_compute. done. Qed.

Example browse_rejected_credentials :
  let run := Scenario.browse (Scenario.always 401) fresh_session in
  run.1 = Raise AuthError_invalid_credentials ∧ cookies run.2 = [].
Proof. vm_compute. done. Qed.

Lemma get_retries_once_after_refresh_witness :
  (make_get_request Scenario.expiring Scenario.keep_jar Scenario.hostname Scenario.client
     "/api/v1/projects" ∅ Scenario.both_tokens).1 = Ok Scenario.projects_body.
Proof.
  destruct (get_retries_once_after_refresh Scenario.expiring Scenario.keep_jar
              Scenario.hostname Scenario.client "/api/v1/projects" ∅ Scenario.both_tokens)
    as [Hretry _].
  pose (w1 := answered Scenario.keep_jar
                (get_request Scenario.client "/api/v1/projects" ∅ Scenario.both_tokens)
                Scenario.both_tokens).
  pose (w2 := (_refresh_access_token Scenario.expiring Scenario.keep_jar Scenario.hostname
                 Scenario.client w1).2).
  destruct (Hretry ltac:(done) (mkResponse 401 [] None) w2) as (_ & _ & _ & _ & Hbody).
  - vm_compute. reflexivity.
  - reflexivity.
  - vm_compute. reflexivity.
  - apply (Hbody (mkResponse 200 [] (Some Scenario.projects_body))).
    + vm_compute. reflexivity.
    + simpl. lia.
    + reflexivity.
Defined.

Lemma get_expired_session_clears_cookies_witness :
  cookies (make_get_request (Scenario.always 401) Scenario.keep_jar Scenario.hostname
             Scenario.client "/api/v1/projects" ∅ Scenario.access_only).2 = [].
Proof.
  edestruct (get_expired_session_clears_cookies (Scenario.always 401) Scenario.keep_jar
               Scenario.hostname Scenario.client "/api/v1/projects" ∅ Scenario.access_only)
    as [_ Hno].
  - done.
  - reflexivity.
  - reflexivity.
  - apply Hno. intros c Hc. apply list_elem_of_singleton in Hc as ->. done.
Defined.

Lemma token_cookie_scoping_witness :
  (∃ jar, mkCookie "access_token" "a1" None "/" ∈ jar ∧
     sent (login Scenario.no_user Scenario.keep_jar Scenario.hostname
             (mkAuth Scenario.local_url) "user@example.org" "secret" fresh_session).2
       = [token_request (mkAuth Scenario.local_url) "user@example.org" "secret";
          mkRequest GET "http://localhost:8000/api/v1/users/current" ∅ jar]) ∧
  mkCookie "refresh_token" "r1" (Some "d2s.example.org") "/"
    ∈ cookies (_refresh_access_token Scenario.expiring Scenario.keep_jar Scenario.hostname
                 Scenario.client Scenario.both_tokens).2.
Proof.
  destruct (token_cookie_scoping Scenario.no_user Scenario.keep_jar Scenario.hostname
              fresh_session) as [Hlogin _].
  destruct (token_cookie_scoping Scenario.expiring Scenario.keep_jar Scenario.hostname
              Scenario.both_tokens) as [_ Hrefresh].
  split.
  - destruct (Hlogin (mkAuth Scenario.local_url) "user@example.org" "secret") as [_ Hstored].
    destruct (Hstored (mkResponse 200 [("access_token", "a1"); ("refresh_token", "r1")] None)
                "a1") as (jar & Hsent & Hjar).
    + reflexivity.
    + reflexivity.
    + reflexivity.
    + discriminate.
    + exists jar. split; [|exact Hsent].
      apply (Hjar "access_token" "a1"); [by left | reflexivity | by left].
  - eapply (Hrefresh Scenario.client).
    + eexists. split; [apply list_elem_of_further, list_elem_of_here | reflexivity].
    + reflexivity.
    + reflexivity.
    + discriminate.
    + discriminate.
    + by right.
    + reflexivity.
    + unfold is_loopback. simpl. intros [?|?]; discriminate.
Defined.



Lemma login_failure_modes_witness :
  (login (Scenario.always 401) Scenario.keep_jar Scenario.hostname (mkAuth Scenario.base_url)
     "user@example.org" "wrong" fresh_session).1 = Raise AuthError_invalid_credentials ∧
  (login (Scenario.always 503) Scenario.keep_jar Scenario.hostname (mkAuth Scenario.base_url)
     "user@example.org" "secret" fresh_session).1
    = Raise (ValueError "Login failed with status 503") ∧
  (login Scenario.no_user Scenario.keep_jar Scenario.hostname (mkAuth Scenario.base_url)
     "user@example.org" "secret" fresh_session).1 = Raise AuthError_user_lookup.
Proof.
  split; [|split].
  - destruct (login_failure_modes (Scenario.always 401) Scenario.keep_jar Scenario.hostname
                (mkAuth Scenario.base_url) "user@example.org" "wrong" fresh_session)
      as (H401 & _).
    rewrite (H401 (mkResponse 401 [] None)); reflexivity.
  - destruct (login_failure_modes (Scenario.always 503) Scenario.keep_jar Scenario.hostname
                (mkAuth Scenario.base_url) "user@example.org" "secret" fresh_session)
      as (_ & Hother & _).
    rewrite (Hother (mkResponse 503 [] None)); [vm_compute; reflexivity | reflexivity | done | done].
  - destruct (login_failure_modes Scenario.no_user Scenario.keep_jar Scenario.hostname
                (mkAuth Scenario.base_url) "user@example.org" "secret" fresh_session)
      as (_ & _ & Hlookup & _).
    rewrite (Hlookup (mkResponse 200 [("access_token", "a1"); ("refresh_token", "r1")] None)
               (mkResponse 500 [] None) "a1");
      [reflexivity | reflexivity | reflexivity | reflexivity | discriminate | reflexivity | done].
Defined.

Lemma login_cookies_after_failure_witness :
  mkCookie "access_token" "a1" (Some "d2s.example.org") "/"
    ∈ cookies (login Scenario.no_user Scenario.keep_jar Scenario.hostname
                 (mkAuth Scenario.base_url) "user@example.org" "secret" fresh_session).2 ∧
  cookies (login (Scenario.always 401) Scenario.keep_jar Scenario.hostname
             (mkAuth Scenario.base_url) "user@example.org" "wrong" Scenario.access_only).2
    = cookies Scenario.access_only.
Proof.
  split.
  - destruct (login_cookies_after_failure Scenario.no_user Scenario.keep_jar Scenario.hostname
                (mkAuth Scenario.base_url) "user@example.org" "secret" fresh_session)
      as [_ Hlookup].
    destruct (Hlookup (mkResponse 200 [("access_token", "a1"); ("refresh_token", "r1")] None)
                (mkResponse 500 [] None) "a1") as (_ & _ & _ & _ & _ & Hkept);
      [reflexivity | reflexivity | reflexivity | discriminate | reflexivity | done |].
    destruct Hkept as [Haccess _]; [reflexivity | exact Haccess].
  - destruct (login_cookies_after_failure (Scenario.always 401) Scenario.keep_jar
                Scenario.hostname (mkAuth Scenario.base_url) "user@example.org" "wrong"
                Scenario.access_only) as [Htoken _].
    destruct (Htoken (mkResponse 401 [] None)) as [_ Hjar]; [reflexivity | done | exact Hjar].
Defined.

(** When the answer to the failed lookup expires [access_token], no
    cookie of that name is left in the jar after the error. *)
Lemma lookup_answer_can_expire_token :
  let call := login Scenario.no_user Scenario.expire_access Scenario.hostname
                (mkAuth Scenario.base_url) "user@example.org" "secret" fresh_session in
  call.1 = Raise AuthError_user_lookup ∧
  jar_has_name "access_token" (cookies call.2) = false.
Proof. vm_compute. done. Qed.

Lemma flight_date_has_no_time_witness :
  ∃ o, Flight Scenario.client
         {[ "id" := JStr "f1"; "acquisition_date" := JStr "2024-06-10T12:34:56" ]} = Ok o ∧
       o !! "acquisition_date" = Some (AVal (JStr "2024-06-10")).
Proof.
  destruct (flight_date_has_no_time Scenario.client
              {[ "id" := JStr "f1"; "acquisition_date" := JStr "2024-06-10T12:34:56" ]}
              "2024-06-10T12:34:56")
    as (o & d & Ho & Hd & _ & _ & Hstamp & _).
  - vm_compute. reflexivity.
  - vm_compute. reflexivity.
  - vm_compute. reflexivity.
  - exists o. split; [exact Ho|]. rewrite Hd. by rewrite (Hstamp eq_refl).
Defined.

Lemma has_raster_sent_only_when_requested_witness :
  ∃ first new,
    sent (get_projects Scenario.expiring Scenario.keep_jar Scenario.hostname
            (mkWorkspace "" Scenario.base_url Scenario.client) true Scenario.both_tokens).2
      = (sent Scenario.both_tokens ++ first :: new)%list ∧
    req_method first = GET ∧
    ∀ req, req ∈ first :: new → req_method req = GET → sends_filter true req.
Proof.
  apply (has_raster_sent_only_when_requested Scenario.expiring Scenario.keep_jar Scenario.hostname
           Scenario.str true Scenario.both_tokens).
Defined.

Lemma constructors_keep_client_witness :
  ∃ p, Project Scenario.client {[ "id" := JStr "p1" ]} = Ok p ∧
       p !! "client" = Some (AClient Scenario.client).
Proof.
  destruct (constructors_keep_client Scenario.client {[ "id" := JStr "p1" ]}) as [Hbuilt _].
  destruct Hbuilt as (p & _ & _ & Hp & Hclient & _).
  - vm_compute. reflexivity.
  - vm_compute. reflexivity.
  - by exists p.
Defined.

(** A server object with a ["client"] field does not replace the client
    of the resource: the call raises and builds nothing. *)
Lemma client_field_is_rejected :
  Project Scenario.client {[ "id" := JStr "p1"; "client" := JStr "other" ]}
    = Raise TypeError ∧
  ¬ ∃ o, Project Scenario.client {[ "id" := JStr "p1"; "client" := JStr "other" ]} = Ok o ∧
         o !! "client" = Some (AVal (JStr "other")).
Proof.
  assert (Project Scenario.client {[ "id" := JStr "p1"; "client" := JStr "other" ]}
          = Raise TypeError) as Hraise by (vm_compute; reflexivity).
  split; [exact Hraise|].
  intros (o & Ho & _). rewrite Hraise in Ho. discriminate.
Qed.

(** ** The further properties on the scenarios *)

Lemma get_single_exchange_witness :
  (make_get_request (Scenario.answers Scenario.projects_body) Scenario.keep_jar Scenario.hostname
     Scenario.client "/api/v1/projects" ∅ Scenario.access_only).1
    = Ok Scenario.projects_body ∧
  (make_get_request (Scenario.always 503) Scenario.keep_jar Scenario.hostname
     Scenario.client "/api/v1/projects" ∅ Scenario.access_only).1
    = Raise (HTTPError (mkResponse 503 [] None)).
Proof.
  split.
  - destruct (get_single_exchange (Scenario.answers Scenario.projects_body) Scenario.keep_jar Scenario.hostname
                Scenario.client "/api/v1/projects" ∅ Scenario.access_only) as [Hone _].
    destruct (Hone (mkResponse 200 [] (Some Scenario.projects_body))) as (_ & _ & Hbody & _).
    + reflexivity.
    + left. simpl. lia.
    + apply Hbody; [simpl; lia | reflexivity].
  - destruct (get_single_exchange (Scenario.always 503) Scenario.keep_jar Scenario.hostname
                Scenario.client "/api/v1/projects" ∅ Scenario.access_only) as [Hone _].
    destruct (Hone (mkResponse 503 [] None)) as (_ & Herr & _).
    + reflexivity.
    + left. simpl. lia.
    + apply Herr. simpl. lia.
Defined.

Lemma get_retry_failure_keeps_cookies_witness :
  (make_get_request Scenario.stubborn Scenario.keep_jar Scenario.hostname Scenario.client
     "/api/v1/projects" ∅ Scenario.both_tokens).1
    = Raise (HTTPError (mkResponse 401 [] None)).
Proof.
  pose (w1 := answered Scenario.keep_jar
                (get_request Scenario.client "/api/v1/projects" ∅ Scenario.both_tokens)
                Scenario.both_tokens).
  pose (w2 := (_refresh_access_token Scenario.stubborn Scenario.keep_jar Scenario.hostname
                 Scenario.client w1).2).
  apply (get_retry_failure_keeps_cookies Scenario.stubborn Scenario.keep_jar Scenario.hostname Scenario.client
           "/api/v1/projects" ∅ Scenario.both_tokens (mkResponse 401 [] None) w2
           (mkResponse 401 [] None)).
  - done.
  - reflexivity.
  - reflexivity.
  - vm_compute. reflexivity.
  - vm_compute. reflexivity.
  - simpl. lia.
Defined.

Lemma expired_session_needs_login_witness :
  let call := make_get_request (Scenario.always 401) Scenario.keep_jar Scenario.hostname Scenario.client
                "/api/v1/projects" ∅ Scenario.access_only in
  Workspace_init Scenario.base_url "" call.2 = (Raise ConfigError, call.2).
Proof.
  apply (expired_session_needs_login (Scenario.always 401) Scenario.keep_jar Scenario.hostname Scenario.client
           "/api/v1/projects" ∅ Scenario.access_only (mkResponse 401 [] None)
           (answered Scenario.keep_jar
              (get_request Scenario.client "/api/v1/projects" ∅ Scenario.access_only)
              Scenario.access_only)).
  - done.
  - reflexivity.
  - reflexivity.
  - vm_compute. reflexivity.
Defined.

Lemma login_200_without_cookie_witness :
  (login (Scenario.always 200) Scenario.keep_jar Scenario.hostname (mkAuth Scenario.base_url)
     "user@example.org" "secret" fresh_session).1
    = Raise (ValueError "Login failed with status 200").
Proof.
  rewrite (login_200_without_cookie (Scenario.always 200) Scenario.keep_jar Scenario.hostname
             (mkAuth Scenario.base_url) "user@example.org" "secret" fresh_session
             (mkResponse 200 [] None));
    [reflexivity | reflexivity | reflexivity | by intros name value ?%elem_of_nil].
Defined.

Lemma login_api_key_witness :
  api_key (login Scenario.healthy Scenario.keep_jar Scenario.hostname (mkAuth Scenario.base_url)
             "user@example.org" "secret" fresh_session).2 = Some (JStr "key").
Proof.
  destruct (login_api_key Scenario.healthy Scenario.keep_jar Scenario.hostname (mkAuth Scenario.base_url)
              "user@example.org" "secret" fresh_session
              (mkResponse 200 [("access_token", "a1")] None)
              (mkResponse 200 []
                 (Some (JObj {[ "id" := JNum 1; "api_access_token" := JStr "key" ]}))) "a1")
    as (_ & Hset & _).
  - reflexivity.
  - reflexivity.
  - reflexivity.
  - discriminate.
  - vm_compute. reflexivity.
  - reflexivity.
  - eapply Hset; [reflexivity | vm_compute; reflexivity | reflexivity].
Defined.

Lemma listing_builds_collection_witness :
  (get_projects (Scenario.answers Scenario.projects_body) Scenario.keep_jar Scenario.hostname
     (mkWorkspace "" Scenario.base_url Scenario.client) true Scenario.access_only).1
    = Ok (mkProjectCollection [Scenario.project]).
Proof.
  pose (w' := (make_get_request (Scenario.answers Scenario.projects_body) Scenario.keep_jar Scenario.hostname
                 Scenario.client "/api/v1/projects"
                 {[ "params" := JObj (has_raster_params true) ]} Scenario.access_only).2).
  destruct (listing_builds_collection (Scenario.answers Scenario.projects_body)
              Scenario.keep_jar Scenario.hostname Scenario.str [ {[ "id" := JStr "p1" ]} ]
              Scenario.access_only w') as [Hprojects _].
  - intros m Hm. apply list_elem_of_singleton in Hm as ->. split; vm_compute; reflexivity.
  - rewrite (Hprojects (mkWorkspace "" Scenario.base_url Scenario.client) true);
      [reflexivity | vm_compute; reflexivity].
Defined.

Lemma listing_rejects_bad_items_witness :
  (get_projects
     (Scenario.answers (JArr [JObj {[ "id" := JStr "p1" ]}; JObj {[ "client" := JStr "x" ]}]))
     Scenario.keep_jar Scenario.hostname (mkWorkspace "" Scenario.base_url Scenario.client) true
     Scenario.access_only).1 = Raise TypeError.
Proof.
  set (body := JArr [JObj {[ "id" := JStr "p1" ]}; JObj {[ "client" := JStr "x" ]}]).
  pose (w' := (make_get_request (Scenario.answers body) Scenario.keep_jar Scenario.hostname
                 Scenario.client "/api/v1/projects"
                 {[ "params" := JObj (has_raster_params true) ]} Scenario.access_only).2).
  destruct (listing_rejects_bad_items (Scenario.answers body) Scenario.keep_jar Scenario.hostname Scenario.str
              body Scenario.access_only w') as [Hprojects _].
  - right. right. right. eexists _, _. split; [reflexivity|]. split.
    + apply list_elem_of_further, list_elem_of_here.
    + left. by eexists.
  - rewrite (Hprojects (mkWorkspace "" Scenario.base_url Scenario.client) true);
      [reflexivity | vm_compute; reflexivity].
Defined.

Lemma get_flights_normalises_every_flight_witness :
  Forall (λ f : gmap string attr, f !! "client" = Some (AClient Scenario.client))
    (flight_collection
       (mkFlightCollection
          [<[ "acquisition_date" := AVal (JStr "2024-06-10") ]>
             (Project_init Scenario.client
                {[ "id" := JStr "f1"; "project_id" := JStr "p1";
                   "acquisition_date" := JStr "2024-06-10T12:34:56" ]})])).
Proof.
  apply Forall_forall.
  pose (w' := (get_flights (Scenario.answers Scenario.flights_body) Scenario.keep_jar Scenario.hostname
                 Scenario.str Scenario.project true Scenario.access_only).2).
  destruct (get_flights_normalises_every_flight (Scenario.answers Scenario.flights_body)
              Scenario.keep_jar Scenario.hostname Scenario.str Scenario.project true Scenario.access_only w'
              (mkFlightCollection
                 [<[ "acquisition_date" := AVal (JStr "2024-06-10") ]>
                    (Project_init Scenario.client
                       {[ "id" := JStr "f1"; "project_id" := JStr "p1";
                          "acquisition_date" := JStr "2024-06-10T12:34:56" ]})]))
    as (c & Hc & Hall).
  - vm_compute. reflexivity.
  - intros f Hf. destruct (Hall f Hf) as [Hclient _]. rewrite Hclient.
    rewrite <- Hc. vm_compute. reflexivity.
Defined.

Lemma get_data_products_endpoint_witness :
  get_data_products (Scenario.always 200) Scenario.keep_jar Scenario.hostname Scenario.str Scenario.project
    Scenario.access_only = (Raise (AttributeError "project_id"), Scenario.access_only).
Proof.
  apply (get_data_products_endpoint (Scenario.always 200) Scenario.keep_jar Scenario.hostname Scenario.str
           Scenario.project Scenario.access_only).
  vm_compute. reflexivity.
Defined.


Lemma ProjectsWorker_expired_session_witness :
  (ProjectsWorker_run (Scenario.always 401) Scenario.keep_jar Scenario.hostname Scenario.message
     (mkWorkspace "" Scenario.base_url Scenario.client) Scenario.access_only).1
    = Ok (error "Session expired. Please login again.").
Proof.
  rewrite (ProjectsWorker_expired_session (Scenario.always 401) Scenario.keep_jar Scenario.hostname
             Scenario.message (mkWorkspace "" Scenario.base_url Scenario.client)
             Scenario.access_only (mkResponse 401 [] None)).
  - reflexivity.
  - reflexivity.
  - reflexivity.
  - intros c Hc. apply list_elem_of_singleton in Hc as ->. done.
Defined.

Lemma worker_on_unusable_resource_witness :
  FlightsWorker_run (Scenario.always 200) Scenario.keep_jar Scenario.hostname Scenario.str Scenario.message
    (Project_init Scenario.client {[ "id" := JStr "p1"; "get_flights" := JNull ]})
    Scenario.access_only
    = (Ok (error "TypeError"), Scenario.access_only).
Proof.
  apply (worker_on_unusable_resource (Scenario.always 200) Scenario.keep_jar Scenario.hostname Scenario.str
           Scenario.message
           (Project_init Scenario.client {[ "id" := JStr "p1"; "get_flights" := JNull ]})
           Scenario.access_only).
  eexists. vm_compute. reflexivity.
Defined.

Lemma ProjectsWorker_finished_witness :
  (ProjectsWorker_run (Scenario.answers Scenario.projects_body) Scenario.keep_jar Scenario.hostname
     Scenario.message (mkWorkspace "" Scenario.base_url Scenario.client)
     Scenario.access_only).1 = Ok (finished [Scenario.project]).
Proof.
  pose (w' := (make_get_request (Scenario.answers Scenario.projects_body) Scenario.keep_jar Scenario.hostname
                 Scenario.client "/api/v1/projects"
                 {[ "params" := JObj {[ "has_raster" := JBool true ]} ]}
                 Scenario.access_only).2).
  rewrite (ProjectsWorker_finished (Scenario.answers Scenario.projects_body) Scenario.keep_jar Scenario.hostname
             Scenario.message (mkWorkspace "" Scenario.base_url Scenario.client)
             [ {[ "id" := JStr "p1" ]} ] Scenario.access_only w').
  - reflexivity.
  - intros m Hm. apply list_elem_of_singleton in Hm as ->. split; vm_compute; reflexivity.
  - vm_compute. reflexivity.
Defined.

Lemma get_current_user_outcomes_witness :
  (get_current_user (Scenario.always 401) Scenario.keep_jar (mkAuth Scenario.base_url) Scenario.access_only).1
    = Ok None ∧
  (get_current_user Scenario.healthy Scenario.keep_jar (mkAuth Scenario.base_url) Scenario.access_only).1
    = Ok (Some (mkUser (JNum 1) JNull JNull JNull (JStr "key"))).
Proof.
  split.
  - destruct (get_current_user_outcomes (Scenario.always 401) Scenario.keep_jar (mkAuth Scenario.base_url)
                Scenario.access_only (mkResponse 401 [] None)) as (_ & Hnone & _).
    + reflexivity.
    + by apply Hnone.
  - destruct (get_current_user_outcomes Scenario.healthy Scenario.keep_jar (mkAuth Scenario.base_url)
                Scenario.access_only
                (mkResponse 200 []
                   (Some (JObj {[ "id" := JNum 1; "api_access_token" := JStr "key" ]}))))
      as (_ & _ & Hok).
    + vm_compute. reflexivity.
    + destruct (Hok eq_refl) as (Huser & _).
      rewrite (Huser {[ "id" := JNum 1; "api_access_token" := JStr "key" ]}); [|reflexivity].
      vm_compute. reflexivity.
Defined.

